(** * pysnyk: page walker, project normalizer and collection managers

    A shallow embedding of [snyk/client.py] ([SnykClient.get],
    [SnykClient.get_rest_pages]) and of [snyk/managers.py] ([Manager],
    [OrganizationManager], [ProjectManager]), with the properties the
    specification states about them.

    Python values that come out of [resp.json()] are modelled by [json];
    a raised exception is an [outcome]; the HTTP transport is a function of
    the request and of the requests made before it, and every call is
    appended to a log, so that "how many requests were issued" is a
    statement about the log. *)

From Stdlib Require Import String Ascii List ZArith Bool Arith Lia.
Import ListNotations.
Open Scope string_scope.
Set Warnings "-register-all".

(** ** Python values *)

Module Py.

(** The values [json.loads] produces.  Numbers are integers: floating-point
    numbers are outside this model.  A [JObj] is a Python dict, kept as an
    association list in which the first binding of a key is the one that
    counts. *)
Inductive json : Type :=
| JNull
| JBool (b : bool)
| JNum (n : Z)
| JStr (s : string)
| JArr (l : list json)
| JObj (m : list (string * json)).

Definition dict := list (string * json).

(** The exception classes the modelled code can raise. *)
Inductive exn : Type :=
| KeyError (k : string)
| TypeError
| AttributeError
| ValueError
| SnykError
| SnykNotFoundError
| SnykNotImplementedError
| SnykHTTPError.

(** What running a piece of code yields: a value, a raised exception, or
    nothing yet because the step budget of a loop ran out. *)
Inductive outcome (A : Type) : Type :=
| Return (a : A)
| Raise (e : exn)
| OutOfFuel.
Arguments Return {A} a.
Arguments Raise {A} e.
Arguments OutOfFuel {A}.

Definition obind {A B} (c : outcome A) (k : A -> outcome B) : outcome B :=
  match c with
  | Return a => k a
  | Raise e => Raise e
  | OutOfFuel => OutOfFuel
  end.

Notation "'let*' x ':=' c 'in' k" := (obind c (fun x => k))
  (at level 10, x name, c at level 100, k at level 200).

Fixpoint omap {A B} (f : A -> outcome B) (l : list A) : outcome (list B) :=
  match l with
  | [] => Return []
  | x :: l' => let* y := f x in let* ys := omap f l' in Return (y :: ys)
  end.

(** *** Dictionaries *)

Fixpoint lookup {V} (k : string) (m : list (string * V)) : option V :=
  match m with
  | [] => None
  | (k', v) :: m' => if String.eqb k k' then Some v else lookup k m'
  end.

Fixpoint delete {V} (k : string) (m : list (string * V)) : list (string * V) :=
  match m with
  | [] => []
  | (k', v) :: m' => if String.eqb k k' then delete k m' else (k', v) :: delete k m'
  end.

(** [d[k] = v]: an existing key keeps its place, a new one goes last. *)
Fixpoint insert {V} (k : string) (v : V) (m : list (string * V)) : list (string * V) :=
  match m with
  | [] => [(k, v)]
  | (k', v') :: m' =>
      if String.eqb k k' then (k, v) :: delete k m' else (k', v') :: insert k v m'
  end.

Definition mem {V} (k : string) (m : list (string * V)) : bool :=
  match lookup k m with Some _ => true | None => false end.

(** [d.keys()], each key once, in insertion order. *)
Fixpoint keys_from {V} (seen : list string) (m : list (string * V)) : list string :=
  match m with
  | [] => []
  | (k, _) :: m' =>
      if existsb (String.eqb k) seen then keys_from seen m'
      else k :: keys_from (k :: seen) m'
  end.

Definition keys {V} (m : list (string * V)) : list string := keys_from [] m.

(** *** Strings *)

(** [needle in hay] on strings. *)
Definition contains (needle hay : string) : bool :=
  match String.index 0 needle hay with Some _ => true | None => false end.

Fixpoint chars (s : string) : list string :=
  match s with
  | EmptyString => []
  | String c s' => String c EmptyString :: chars s'
  end.

(** [str(b).lower()] *)
Definition bool_lower (b : bool) : string := if b then "true" else "false".

(** *** Operators on values *)

(** [bool(v)] *)
Definition truthy (v : json) : bool :=
  match v with
  | JNull => false
  | JBool b => b
  | JNum n => negb (Z.eqb n 0)
  | JStr s => negb (String.eqb s "")
  | JArr l => match l with [] => false | _ => true end
  | JObj m => match m with [] => false | _ => true end
  end.

(** [a == b].  [True == 1] and [False == 0] hold in Python; dicts compare
    regardless of the order of their keys. *)
Fixpoint py_eq (a b : json) : bool :=
  match a, b with
  | JNull, JNull => true
  | JBool x, JBool y => Bool.eqb x y
  | JNum x, JNum y => Z.eqb x y
  | JBool x, JNum y => Z.eqb (if x then 1 else 0) y
  | JNum x, JBool y => Z.eqb x (if y then 1 else 0)
  | JStr x, JStr y => String.eqb x y
  | JArr x, JArr y =>
      (fix go (x y : list json) : bool :=
         match x, y with
         | [], [] => true
         | u :: x', v :: y' => py_eq u v && go x' y'
         | _, _ => false
         end) x y
  | JObj x, JObj y =>
      Nat.eqb (length (keys x)) (length (keys y))
      && (fix go (seen : list string) (x0 : list (string * json)) : bool :=
            match x0 with
            | [] => true
            | (k, u) :: x' =>
                (if existsb (String.eqb k) seen then true
                 else match lookup k y with
                      | Some v => py_eq u v
                      | None => false
                      end)
                && go (k :: seen) x'
            end) [] x
  | _, _ => false
  end.

(** [v.get(k, default)]: only a dict has [get]. *)
Definition py_get (v : json) (k : string) (default : json) : outcome json :=
  match v with
  | JObj m => Return (match lookup k m with Some x => x | None => default end)
  | _ => Raise AttributeError
  end.

(** [v[k]] with a string key. *)
Definition py_getitem (v : json) (k : string) : outcome json :=
  match v with
  | JObj m => match lookup k m with Some x => Return x | None => Raise (KeyError k) end
  | _ => Raise TypeError
  end.

(** [k in v] with a string on the left. *)
Definition py_in (k : string) (v : json) : outcome bool :=
  match v with
  | JObj m => Return (mem k m)
  | JArr l => Return (existsb (py_eq (JStr k)) l)
  | JStr s => Return (contains k s)
  | _ => Raise TypeError
  end.

(** [len(v)] *)
Definition py_len (v : json) : outcome nat :=
  match v with
  | JArr l => Return (length l)
  | JObj m => Return (length (keys m))
  | JStr s => Return (String.length s)
  | _ => Raise TypeError
  end.

(** The items [for x in v] goes through. *)
Definition py_iter (v : json) : outcome (list json) :=
  match v with
  | JArr l => Return l
  | JObj m => Return (map JStr (keys m))
  | JStr s => Return (map JStr (chars s))
  | _ => Raise TypeError
  end.

(** [target.extend(src)]: only a list has [extend]. *)
Definition py_extend (target src : json) : outcome json :=
  match target with
  | JArr l => let* items := py_iter src in Return (JArr (l ++ items))
  | _ => Raise AttributeError
  end.

(** [s or t] on optional strings, as a value; [None] is [JNull]. *)
Definition opt_truthy (s : option string) : bool :=
  match s with Some x => negb (String.eqb x "") | None => false end.

Definition opt_json (s : option string) : json :=
  match s with Some x => JStr x | None => JNull end.

End Py.

(** ** snyk/client.py *)

Module Client.
Import Py.

(** What [requests.get] is handed: the URL and, when given, the [params]
    keyword.  The headers play no part in what follows and are left out. *)
Record request : Type := mkRequest {
  url : string;
  params : option dict
}.

(** Code that talks to the network: it reads the requests issued so far and
    appends its own. *)
Definition M (A : Type) : Type := list request -> outcome A * list request.

Definition ret {A} (a : A) : M A := fun log => (Return a, log).

Definition bind {A B} (c : M A) (k : A -> M B) : M B :=
  fun log =>
    match c log with
    | (Return a, log') => k a log'
    | (Raise e, log') => (Raise e, log')
    | (OutOfFuel, log') => (OutOfFuel, log')
    end.

Definition lift {A} (c : outcome A) : M A := fun log => (c, log).

Notation "x <- c ;; k" := (bind c (fun x => k))
  (at level 61, c at next level, right associativity).

Fixpoint mmap {A B} (f : A -> M B) (l : list A) : M (list B) :=
  match l with
  | [] => ret []
  | x :: l' => y <- f x ;; ys <- mmap f l' ;; ret (y :: ys)
  end.

(** The collaborators of the client that are not part of these sources:
    [utils.cleanup_path], and the transport with its retries, the check of
    [resp.ok] and the decoding [resp.json()] of the body.  The transport
    answers a request knowing the requests that came before. *)
Class Backend : Type := {
  cleanup_path : json -> outcome string;
  transport : list request -> request -> outcome json
}.

(** The fields of [SnykClient] that [get] reads. *)
Record SnykClient : Type := mkClient {
  api_url : string;
  rest_api_url : string;
  version : option string
}.

(** One call of the transport, recorded in the log. *)
Definition send `{Backend} (r : request) : M json :=
  fun log => (transport log r, (log ++ [r])%list).

(** The loop of [get] that rewrites Python booleans. *)
Definition lower_bools (ps : dict) : dict :=
  map (fun kv => match snd kv with
                 | JBool b => (fst kv, JStr (bool_lower b))
                 | _ => kv
                 end) ps.

(** The part of [SnykClient.get] before the call of the transport: the
    request it builds from its arguments. *)
Definition build_request `{Backend} (self : SnykClient) (path : json)
    (params : option dict) (version : option string) (rest : bool) : outcome request :=
  let rest := if opt_truthy version then true else rest in
  let* path := cleanup_path path in
  let params := match params with
                | Some (kv :: ps) => kv :: ps
                | _ => []
                end in
  if rest then
    let params :=
      if negb (mem "version" params) && negb (contains "version" path)
      then insert "version"
             (if opt_truthy version then opt_json version
              else opt_json self.(Client.version)) params
      else params in
    let params := lower_bools params in
    if contains "snyk.io" path
    then Return {| url := path; params := None |}
    else Return {| url := self.(rest_api_url) ++ "/" ++ path; params := Some params |}
  else
    Return {| url := self.(api_url) ++ "/" ++ path; params := Some params |}.

(** [SnykClient.get], giving back the decoded body of the response. *)
Definition get `{Backend} (self : SnykClient) (path : json) (params : option dict)
    (version : option string) (rest : bool) : M json :=
  r <- lift (build_request self path params version rest) ;;
  send r.

Definition out_of_fuel {A} : M A := fun log => (OutOfFuel, log).

(** The [while] loop of [get_rest_pages]; each test of the loop condition
    takes one unit of [fuel]. *)
Fixpoint rest_pages_loop `{Backend} (fuel : nat) (self : SnykClient)
    (page_data return_data : json) : M json :=
  match fuel with
  | O => out_of_fuel
  | S fuel' =>
      links <- lift (py_get page_data "links" (JObj [])) ;;
      next <- lift (py_get links "next" JNull) ;;
      if truthy next then
        links <- lift (py_getitem page_data "links") ;;
        has_next <- lift (py_in "next" links) ;;
        if has_next then
          has_self <- lift (py_in "self" links) ;;
          same <- (if has_self
                   then n <- lift (py_getitem links "next") ;;
                        s <- lift (py_getitem links "self") ;;
                        ret (py_eq n s)
                   else ret false) ;;
          if same then ret return_data
          else
            let next_url := next in
            page_data <- get self next_url None None true ;;
            has_data <- lift (py_in "data" page_data) ;;
            if has_data then
              data <- lift (py_getitem page_data "data") ;;
              n <- lift (py_len data) ;;
              if Nat.eqb n 0 then ret return_data
              else
                return_data <- lift (py_extend return_data data) ;;
                rest_pages_loop fuel' self page_data return_data
            else ret return_data
        else ret return_data
      else ret return_data
  end.

(** [SnykClient.get_rest_pages] *)
Definition get_rest_pages `{Backend} (fuel : nat) (self : SnykClient)
    (path : string) (params : dict) : M json :=
  page_data <- get self (JStr path) (Some params) None true ;;
  return_data <- lift (py_getitem page_data "data") ;;
  rest_pages_loop fuel self page_data return_data.

End Client.

(** ** snyk/managers.py *)

Module Managers.
Import Py Client.

(** The model classes of [snyk/models.py], which is not part of these
    sources: how an object is built from a dict and what its attributes
    hold.  [item_id x] is [x.id]. *)
Class Model (T : Type) : Type := {
  from_dict : json -> outcome T;
  item_id : T -> json;
  getattr : T -> string -> outcome json
}.

(** *** The base class [Manager] *)

Section Manager.
Context {T : Type} `{Model T}.

(** The abstract method [all] of the manager at hand. *)
Variable all : M (list T).

(** [next(x for x in items if x.id == id)], [StopIteration] turned into
    [SnykNotFoundError]. *)
Fixpoint first_with_id (id : json) (items : list T) : outcome T :=
  match items with
  | [] => Raise SnykNotFoundError
  | x :: items' => if py_eq (item_id x) id then Return x else first_with_id id items'
  end.

Definition Manager_get (id : json) : M T :=
  items <- all ;;
  lift (first_with_id id items).

Definition Manager_first : M T :=
  items <- all ;;
  match items with
  | x :: _ => ret x
  | [] => lift (Raise SnykNotFoundError)
  end.

(** [[x for x in data if getattr(x, key) == value]] *)
Fixpoint keep_equal (key : string) (value : json) (data : list T) : outcome (list T) :=
  match data with
  | [] => Return []
  | x :: data' =>
      let* v := getattr x key in
      let* rest := keep_equal key value data' in
      Return (if py_eq v value then x :: rest else rest)
  end.

Fixpoint _filter_by_kwargs (data : list T) (kwargs : dict) : outcome (list T) :=
  match kwargs with
  | [] => Return data
  | (key, value) :: kwargs' =>
      let* data := keep_equal key value data in
      _filter_by_kwargs data kwargs'
  end.

Definition Manager_filter (kwargs : dict) : M (list T) :=
  items <- all ;;
  lift (_filter_by_kwargs items kwargs).

End Manager.

(** *** [OrganizationManager] *)

Definition OrganizationManager_all `{Backend} {Org : Type} `{Model Org}
    (client : SnykClient) : M (list Org) :=
  body <- get client (JStr "orgs") None None false ;;
  has_orgs <- lift (py_in "orgs" body) ;;
  if has_orgs then
    orgs <- lift (py_getitem body "orgs") ;;
    items <- lift (py_iter orgs) ;;
    lift (omap from_dict items)
  else ret [].

(** *** [ProjectManager] *)

(** [v.get(k1, {}).get(k2, {})...], one [get] with default [{}] per key. *)
Fixpoint get_chain (v : json) (ks : list string) : outcome json :=
  match ks with
  | [] => Return v
  | k :: ks' => let* x := py_get v k (JObj []) in get_chain x ks'
  end.

Definition _rest_to_v1_response_format (project : json) : outcome json :=
  let* attributes := get_chain project ["attributes"] in
  let* settings := get_chain attributes ["settings"] in
  let* recurring_tests := get_chain settings ["recurring_tests"] in
  let* issue_counts := get_chain project ["meta"; "latest_issue_counts"] in
  let* target_attributes :=
    get_chain project ["relationships"; "target"; "data"; "attributes"] in
  let* remote_repo_url := py_get target_attributes "url" JNull in
  let* integration_data :=
    get_chain project ["relationships"; "target"; "data"; "meta"; "integration_data"] in
  let* image_cluster := py_get integration_data "cluster" JNull in
  let* name := py_get attributes "name" JNull in
  let* id := py_get project "id" JNull in
  let* created := py_get attributes "created" JNull in
  let* origin := py_get attributes "origin" JNull in
  let* type := py_get attributes "type" JNull in
  let* read_only := py_get attributes "read_only" JNull in
  let* frequency := py_get recurring_tests "frequency" JNull in
  let* updated_at := py_get issue_counts "updated_at" JNull in
  let* status := py_get attributes "status" JNull in
  let* low := py_get issue_counts "low" (JNum 0) in
  let* medium := py_get issue_counts "medium" (JNum 0) in
  let* high := py_get issue_counts "high" (JNum 0) in
  let* critical := py_get issue_counts "critical" (JNum 0) in
  let* target_reference := py_get attributes "target_reference" JNull in
  let* branch := py_get attributes "target_reference" JNull in
  let* tags := py_get attributes "tags" (JArr []) in
  let* importer_data := get_chain project ["relationships"; "importer"; "data"] in
  let* importing_user := py_get importer_data "id" JNull in
  let* owner_data := get_chain project ["relationships"; "owner"; "data"] in
  let* owning_user := py_get owner_data "id" JNull in
  Return (JObj
    [ ("name", name);
      ("id", id);
      ("created", created);
      ("origin", origin);
      ("type", type);
      ("readOnly", read_only);
      ("testFrequency", frequency);
      ("lastTestedDate", updated_at);
      ("isMonitored", JBool (py_eq status (JStr "active")));
      ("issueCountsBySeverity",
        JObj [ ("low", low); ("medium", medium); ("high", high);
               ("critical", critical) ]);
      ("targetReference", target_reference);
      ("branch", branch);
      ("remoteRepoUrl", remote_repo_url);
      ("imageCluster", image_cluster);
      ("_tags", tags);
      ("importingUserId", importing_user);
      ("owningUserId", owning_user) ]).

(** The organization and project classes of [snyk/models.py] as the
    project manager uses them: [org_id_str o] is [o.id] as [%s] prints it,
    [org_to_dict o] is [o.to_dict()], [set_organization o x] is the
    assignment [x.organization = o], and [org_projects_all o] is
    [o.projects.all()]. *)
Class Models (Org Project : Type) : Type := {
  org_model :: Model Org;
  project_model :: Model Project;
  org_id_str : Org -> string;
  org_to_dict : Org -> json;
  set_organization : Org -> Project -> Project;
  org_projects_all : Org -> M (list Project)
}.

(** A tag as [filter] and [_query] take it, a [Dict[str, str]]. *)
Definition tag := list (string * string).

(** The check of [_query] on every tag. *)
Definition malformed (t : tag) : bool :=
  negb (mem "key" t) || negb (mem "value" t) || negb (Nat.eqb (length (keys t)) 2).

Fixpoint validate_tags (tags : list tag) : outcome unit :=
  match tags with
  | [] => Return tt
  | t :: tags' => if malformed t then Raise SnykError else validate_tags tags'
  end.

(** [f'{d["key"]}:{d["value"]}'] *)
Definition render_tag (d : tag) : outcome string :=
  match lookup "key" d with
  | None => Raise (KeyError "key")
  | Some k =>
      match lookup "value" d with
      | None => Raise (KeyError "value")
      | Some v => Return (k ++ ":" ++ v)
      end
  end.

(** The [try] block of [_query] that renames [attributes.tags]; only a
    [KeyError] is swallowed. *)
Definition move_tags (project_data : dict) : outcome dict :=
  match lookup "attributes" project_data with
  | None => Return project_data
  | Some (JObj a) =>
      match lookup "tags" a with
      | None => Return project_data
      | Some t =>
          Return (insert "attributes" (JObj (delete "tags" (insert "_tags" t a)))
                    project_data)
      end
  | Some _ => Raise TypeError
  end.

Section ProjectManager.
Context `{Backend} {Org Project : Type} `{Models Org Project}.

(** The body of the loop of [_query] over the items of one response. *)
Definition build_project (org : Org) (response_data : json) : outcome Project :=
  let* project_data := _rest_to_v1_response_format response_data in
  match project_data with
  | JObj project_data =>
      let project_data := insert "organization" (org_to_dict org) project_data in
      let* project_data := move_tags project_data in
      let project_data :=
        match lookup "totalDependencies" project_data with
        | Some v => if truthy v then project_data
                    else insert "totalDependencies" (JNum 0) project_data
        | None => insert "totalDependencies" (JNum 0) project_data
        end in
      from_dict (JObj project_data)
  | _ => Raise TypeError
  end.

(** [ProjectManager._query]; [instance] is the manager's scope, each call
    takes one unit of [fuel]. *)
Fixpoint _query (fuel : nat) (client : SnykClient) (instance : option Org)
    (tags : list tag) (next_url : json) : M (list Project) :=
  match fuel with
  | O => out_of_fuel
  | S fuel' =>
      let params : dict := [("limit", JNum 100)] in
      match instance with
      | Some org =>
          let path :=
            if negb (truthy next_url)
            then JStr ("/orgs/" ++ org_id_str org ++ "/projects")
            else next_url in
          params <- match tags with
                    | [] => ret params
                    | _ :: _ =>
                        _ <- lift (validate_tags tags) ;;
                        data <- lift (omap render_tag tags) ;;
                        ret (insert "tags" (JStr (String.concat "," data)) params)
                    end ;;
          let params :=
            if negb (truthy next_url)
            then insert "expand" (JStr "target")
                   (insert "meta.latest_issue_counts" (JStr "true") params)
            else params in
          body <- (if truthy next_url
                   then get client next_url (Some params) None true
                   else get client path (Some params) None true) ;;
          has_data <- lift (py_in "data" body) ;;
          projects <-
            (if has_data then
               data <- lift (py_getitem body "data") ;;
               items <- lift (py_iter data) ;;
               projects <- lift (omap (build_project org) items) ;;
               links <- lift (py_get body "links" (JObj [])) ;;
               has_next <- lift (py_in "next" links) ;;
               if has_next then
                 next_url <- lift (py_getitem links "next") ;;
                 more <- _query fuel' client instance tags next_url ;;
                 ret (projects ++ more)%list
               else ret projects
             else ret []) ;;
          ret (map (set_organization org) projects)
      | None =>
          orgs <- OrganizationManager_all client ;;
          lists <- mmap org_projects_all orgs ;;
          ret (concat lists)
      end
  end.

Definition ProjectManager_all (fuel : nat) (client : SnykClient)
    (instance : option Org) : M (list Project) :=
  _query fuel client instance [] JNull.

Definition ProjectManager_filter (fuel : nat) (client : SnykClient)
    (instance : option Org) (tags : list tag) (kwargs : dict) : M (list Project) :=
  match tags with
  | _ :: _ =>
      items <- _query fuel client instance tags JNull ;;
      lift (_filter_by_kwargs items kwargs)
  | [] => Manager_filter (ProjectManager_all fuel client instance) kwargs
  end.

End ProjectManager.

End Managers.

(** ** The shapes the statements speak about *)

Module Shapes.
Import Py Client Managers.

(** [v] is a dict, and following the keys [ks] into it, as far as they are
    present, only dicts are met: keys may be missing, but none holds
    something else than a dict. *)
Fixpoint objects_along (ks : list string) (v : json) : bool :=
  match v with
  | JObj m =>
      match ks with
      | [] => true
      | k :: ks' =>
          match lookup k m with
          | Some x => objects_along ks' x
          | None => true
          end
      end
  | _ => false
  end.

(** A REST project resource: every nested mapping the normalizer walks
    through is a mapping when it is there. *)
Definition rest_project_payload (p : json) : bool :=
  objects_along ["attributes"; "settings"; "recurring_tests"] p
  && objects_along ["meta"; "latest_issue_counts"] p
  && objects_along ["relationships"; "target"; "data"; "attributes"] p
  && objects_along ["relationships"; "target"; "data"; "meta"; "integration_data"] p
  && objects_along ["relationships"; "importer"; "data"] p
  && objects_along ["relationships"; "owner"; "data"] p.

(** [meta.latest_issue_counts] is absent, or present and empty. *)
Definition no_issue_counts (p : json) : Prop :=
  exists m, p = JObj m /\
    (lookup "meta" m = None \/
     exists meta, lookup "meta" m = Some (JObj meta) /\
       (lookup "latest_issue_counts" meta = None \/
        lookup "latest_issue_counts" meta = Some (JObj []))).

(** [resource.attributes.<k>], [JNull] when it is not there. *)
Definition attribute_of (p : json) (k : string) : json :=
  match p with
  | JObj m =>
      match lookup "attributes" m with
      | Some (JObj a) => match lookup k a with Some v => v | None => JNull end
      | _ => JNull
      end
  | _ => JNull
  end.

(** The dict [page.get("links", {})] of a page, when it is one. *)
Definition links_of (page : json) : option dict :=
  match page with
  | JObj m =>
      match lookup "links" m with
      | None => Some []
      | Some (JObj l) => Some l
      | Some _ => None
      end
  | _ => None
  end.

(** The page has no "next" link. *)
Definition no_next_link (page : json) : Prop :=
  exists l, links_of page = Some l /\ lookup "next" l = None.

(** The page has a "next" link [n] that the walker follows: it is truthy
    and is not equal to the "self" link. *)
Definition follows_next (page : json) (n : json) : Prop :=
  exists l, links_of page = Some l /\ lookup "next" l = Some n /\
    truthy n = true /\
    (lookup "self" l = None \/
     exists s, lookup "self" l = Some s /\ py_eq n s = false).

(** The page has a "next" link that is falsy ([null], the empty string,
    [0], [false], an empty list or dict). *)
Definition falsy_next (page : json) : Prop :=
  exists l n, links_of page = Some l /\ lookup "next" l = Some n /\
    truthy n = false.

(** The page has a "next" link equal to its "self" link. *)
Definition next_is_self (page : json) : Prop :=
  exists l n s, links_of page = Some l /\ lookup "next" l = Some n /\
    lookup "self" l = Some s /\ py_eq n s = true.

(** The items of a page: its "data" list. *)
Definition page_items (page : json) : list json :=
  match page with
  | JObj m => match lookup "data" m with Some (JArr l) => l | _ => [] end
  | _ => []
  end.

(** The page is a dict whose "data" field is a list. *)
Definition has_data_list (page : json) : Prop :=
  exists m d, page = JObj m /\ lookup "data" m = Some (JArr d).

(** The page carries a "data" list with at least one item. *)
Definition has_items (page : json) : Prop :=
  exists m x xs, page = JObj m /\ lookup "data" m = Some (JArr (x :: xs)).

(** The page is a dict without a "data" field. *)
Definition lacks_data (page : json) : Prop :=
  exists m, page = JObj m /\ lookup "data" m = None.

(** The page has a "data" field that is the empty list. *)
Definition empty_data (page : json) : Prop :=
  exists m, page = JObj m /\ lookup "data" m = Some (JArr []).

(** [walk self log p qs log']: starting with [p] as current page and [log]
    as the requests issued so far, the transport returns the pages [qs] one
    after the other, each fetched through the "next" link of the page
    before it and each carrying items; [log'] is the log after them. *)
Inductive walk `{Backend} (self : SnykClient) :
    list request -> json -> list json -> list request -> Prop :=
| walk_done : forall log p, walk self log p [] log
| walk_step : forall log p n r q qs log',
    follows_next p n ->
    build_request self n None None true = Return r ->
    transport log r = Return q ->
    has_items q ->
    walk self (log ++ [r])%list q qs log' ->
    walk self log p (q :: qs) log'.

(** What the loop of [get] makes of one value. *)
Definition lowered (v : json) : json :=
  match v with JBool b => JStr (bool_lower b) | _ => v end.

(** The parameters [get] is called with, [None] being none. *)
Definition given_params (params : option dict) : dict :=
  match params with Some ps => ps | None => [] end.

(** Every parameter given as a boolean goes out, in the request [r], as the
    string "true" or "false". *)
Definition bools_lowered (given : dict) (r : request) : Prop :=
  forall ps, Client.params r = Some ps ->
    forall k b, lookup k given = Some (JBool b) ->
      lookup k ps = Some (JStr (bool_lower b)).

(** No parameter of the request [r] is a boolean. *)
Definition no_bool_param (r : request) : Prop :=
  forall ps, Client.params r = Some ps ->
    forall k b, lookup k ps <> Some (JBool b).

(** The query parameters of the first request of a query without tags. *)
Definition all_page_params : dict :=
  [ ("limit", JNum 100); ("meta.latest_issue_counts", JStr "true");
    ("expand", JStr "target") ].

(** The query parameters of the first request of a tag-filtered query. *)
Definition first_page_params (tags_value : string) : dict :=
  [ ("limit", JNum 100); ("tags", JStr tags_value);
    ("meta.latest_issue_counts", JStr "true"); ("expand", JStr "target") ].




(** The comma-joined [key:value] rendering of a list of tags. *)
Definition tags_param (tags : list tag) : string :=
  String.concat ","
    (map (fun t =>
            match lookup "key" t, lookup "value" t with
            | Some k, Some v => k ++ ":" ++ v
            | _, _ => ""
            end) tags).

End Shapes.

(** ** Concrete values the statements are tried on *)

Module Fixtures.
Import Py Client Managers Shapes.

(** A project without [meta], [relationships] and [attributes.settings]. *)
Definition bare_project : json :=
  JObj [ ("id", JStr "p1");
         ("attributes", JObj [ ("name", JStr "app"); ("status", JStr "active");
                               ("target_reference", JStr "main") ]) ].

(** Model objects that are the dicts they were built from. *)
#[export] Instance json_model : Model json := {
  from_dict := fun v => Return v;
  item_id := fun v => match v with
                      | JObj m => match lookup "id" m with Some x => x | None => JNull end
                      | _ => JNull
                      end;
  getattr := fun v k => match py_getitem v k with
                        | Return x => Return x
                        | _ => Raise AttributeError
                        end
}.

Definition two_items : list json :=
  [ JObj [("id", JStr "a")]; JObj [("id", JStr "b")] ].

Definition demo_client : SnykClient :=
  {| api_url := "https://api.snyk.io/v1";
     rest_api_url := "https://api.snyk.io/rest";
     version := Some "2024-10-15" |}.

(** [count] items, numbered from [from]. *)
Definition numbers (from count : nat) : list json :=
  map (fun i => JNum (Z.of_nat i)) (seq from count).

Definition page (items : list json) (links : dict) : json :=
  JObj [ ("data", JArr items); ("links", JObj links) ].

Definition url_targets : string := "https://api.snyk.io/rest/orgs/o/targets".
Definition url_page2 : string :=
  "https://api.snyk.io/rest/orgs/o/targets?version=2024-10-15&starting_after=10".
Definition url_page3 : string :=
  "https://api.snyk.io/rest/orgs/o/targets?version=2024-10-15&starting_after=20".
Definition url_short : string := "https://api.snyk.io/rest/orgs/o/short".
Definition url_end : string := "https://api.snyk.io/rest/orgs/o/end?version=2024-10-15".
Definition url_loop : string := "https://api.snyk.io/rest/orgs/o/loop".
Definition url_none : string := "https://api.snyk.io/rest/orgs/o/none".
Definition url_orgs : string := "https://api.snyk.io/v1/orgs".

(** Three pages of ten items; the third has no "next" link. *)
Definition page1 : json :=
  page (numbers 1 10) [ ("self", JStr url_targets); ("next", JStr url_page2) ].
Definition page2 : json :=
  page (numbers 11 10) [ ("self", JStr url_page2); ("next", JStr url_page3) ].
Definition page3 : json :=
  page (numbers 21 10) [ ("self", JStr url_page3) ].

(** A page whose "next" link leads to a response without "data". *)
Definition short_page : json :=
  page (numbers 1 2) [ ("next", JStr url_end) ].
Definition end_page : json := JObj [ ("links", JObj []) ].

(** A page whose "next" link is its "self" link. *)
Definition loop_page : json :=
  page (numbers 1 2) [ ("self", JStr url_loop); ("next", JStr url_loop) ].

Definition url_projects : string := "https://api.snyk.io/rest/orgs/o/projects".
Definition url_projects_n : string := "https://api.snyk.io/rest/orgs/n/projects".
Definition url_ping : string := "https://api.snyk.io/rest/orgs/o/ping".
Definition url_pong : string := "https://api.snyk.io/rest/orgs/o/pong".
Definition url_last : string := "https://api.snyk.io/rest/orgs/o/last".
Definition url_broken : string := "https://api.snyk.io/rest/orgs/o/broken".
Definition url_gone : string := "https://api.snyk.io/rest/orgs/o/gone".

(** Two pages whose "next" links lead to each other. *)
Definition ping_page : json :=
  page (numbers 1 1) [ ("self", JStr url_ping); ("next", JStr url_pong) ].
Definition pong_page : json :=
  page (numbers 2 1) [ ("self", JStr url_pong); ("next", JStr url_ping) ].

(** A page whose "next" link is [null]. *)
Definition last_page : json :=
  page (numbers 1 2) [ ("self", JStr url_last); ("next", JNull) ].

(** A page whose "next" link leads to a URL the server fails on. *)
Definition broken_page : json :=
  page (numbers 1 2) [ ("next", JStr url_gone) ].

(** The projects of organization [o]: one tagged [env:prod], one not. *)
Definition tagged_project : json :=
  JObj [ ("id", JStr "p2");
         ("attributes", JObj [ ("name", JStr "api"); ("status", JStr "inactive");
                               ("tags", JArr [ JObj [ ("key", JStr "env");
                                                      ("value", JStr "prod") ] ]) ]) ].
Definition projects_page : json :=
  JObj [ ("data", JArr [ bare_project; tagged_project ]); ("links", JObj []) ].

(** The projects of organization [n]: one page, whose "next" link is
    [null]. *)
Definition projects_page_n : json :=
  JObj [ ("data", JArr [ bare_project ]); ("links", JObj [ ("next", JNull) ]) ].
Definition demo_org_n : json := JObj [ ("id", JStr "n") ].

(** A server that answers by URL alone; its [cleanup_path] drops one
    leading slash. *)
Definition demo_backend : Backend :=
  {| cleanup_path := fun p => match p with
                              | JStr (String "/" s) => Return s
                              | JStr s => Return s
                              | _ => Raise TypeError
                              end;
     transport := fun _ r =>
       if String.eqb (url r) url_targets then Return page1
       else if String.eqb (url r) url_page2 then Return page2
       else if String.eqb (url r) url_page3 then Return page3
       else if String.eqb (url r) url_short then Return short_page
       else if String.eqb (url r) url_end then Return end_page
       else if String.eqb (url r) url_loop then Return loop_page
       else if String.eqb (url r) url_none then Return (JObj [])
       else if String.eqb (url r) url_orgs then Return (JObj [])
       else if String.eqb (url r) url_projects then Return projects_page
       else if String.eqb (url r) url_projects_n then Return projects_page_n
       else if String.eqb (url r) url_ping then Return ping_page
       else if String.eqb (url r) url_pong then Return pong_page
       else if String.eqb (url r) url_last then Return last_page
       else if String.eqb (url r) url_broken then Return broken_page
       else Raise SnykHTTPError |}.

(** An organization, as the dict it was built from. *)
Definition demo_org : json := JObj [ ("id", JStr "o"); ("name", JStr "org") ].

(** Organizations and projects that are the dicts they were built from; no
    organization has a project of its own. *)
Definition demo_models : Models json json :=
  {| org_model := json_model;
     project_model := json_model;
     org_id_str := fun o => match item_id o with JStr s => s | _ => "" end;
     org_to_dict := fun o => o;
     set_organization := fun o x =>
       match x with
       | JObj m => JObj (insert "organization" o m)
       | _ => x
       end;
     org_projects_all := fun _ => ret [] |}.

End Fixtures.

(** * Properties *)

(** ** Dictionaries and values *)

Module PyFacts.
Import Py.

Lemma lookup_delete_ne {V} (k k' : string) (m : list (string * V)) :
  k <> k' -> lookup k (delete k' m) = lookup k m.
Proof.
  intros Hne. induction m as [|[k0 v0] m IH]; simpl; [reflexivity|].
  destruct (String.eqb_spec k' k0) as [->|Hk0]; simpl.
  - rewrite IH. destruct (String.eqb_spec k k0); congruence.
  - rewrite IH. reflexivity.
Qed.

Lemma lookup_insert_eq {V} (k : string) (v : V) (m : list (string * V)) :
  lookup k (insert k v m) = Some v.
Proof.
  induction m as [|[k0 v0] m IH]; simpl.
  - rewrite String.eqb_refl. reflexivity.
  - destruct (String.eqb_spec k k0) as [->|Hne]; simpl.
    + rewrite String.eqb_refl. reflexivity.
    + destruct (String.eqb_spec k k0); [congruence|assumption].
Qed.

Lemma lookup_insert_ne {V} (k k' : string) (v : V) (m : list (string * V)) :
  k <> k' -> lookup k (insert k' v m) = lookup k m.
Proof.
  intros Hne. induction m as [|[k0 v0] m IH]; simpl.
  - destruct (String.eqb_spec k k'); congruence.
  - destruct (String.eqb_spec k' k0) as [->|Hk0]; simpl.
    + destruct (String.eqb_spec k k0); [congruence|].
      apply lookup_delete_ne. assumption.
    + rewrite IH. reflexivity.
Qed.

Lemma py_eq_str (v : json) (s : string) :
  py_eq v (JStr s) = true <-> v = JStr s.
Proof.
  destruct v; simpl; split; intros E; try discriminate.
  - apply String.eqb_eq in E. congruence.
  - inversion E. apply String.eqb_refl.
Qed.

Lemma py_eq_str_refl (s : string) : py_eq (JStr s) (JStr s) = true.
Proof. apply py_eq_str. reflexivity. Qed.

Lemma py_get_obj (m : dict) (k : string) (d : json) :
  py_get (JObj m) k d = Return (match lookup k m with Some x => x | None => d end).
Proof. reflexivity. Qed.

End PyFacts.

(** ** The project normalizer *)

Module NormalizerFacts.
Import Py Client Managers Shapes PyFacts Fixtures.

Lemma objects_along_obj (ks : list string) (v : json) :
  objects_along ks v = true -> exists m, v = JObj m.
Proof. destruct ks, v; simpl; try discriminate; eauto. Qed.

(** Following a chain of keys through a well-shaped value never raises, and
    what is left of the shape holds of the value reached. *)
Lemma get_chain_along (ks1 ks2 : list string) :
  forall v, objects_along (ks1 ++ ks2) v = true ->
    exists x, get_chain v ks1 = Return x /\ objects_along ks2 x = true.
Proof.
  induction ks1 as [|k ks1 IH]; intros v Hv; simpl in *.
  - eauto.
  - destruct v; try discriminate. simpl.
    destruct (lookup k m) as [x|] eqn:E.
    + apply IH. assumption.
    + clear. induction ks1 as [|k' ks1 IH]; simpl.
      * exists (JObj []). split; [reflexivity|]. destruct ks2; reflexivity.
      * exact IH.
Qed.

Lemma get_chain_obj (ks : list string) (v : json) :
  objects_along ks v = true -> exists m, get_chain v ks = Return (JObj m).
Proof.
  intros Hv. rewrite <- (app_nil_r ks) in Hv.
  destruct (get_chain_along _ _ _ Hv) as (x & Hx & Ho).
  destruct (objects_along_obj _ _ Ho) as [m ->]. eauto.
Qed.

Lemma no_issue_counts_chain (p : json) :
  no_issue_counts p -> get_chain p ["meta"; "latest_issue_counts"] = Return (JObj []).
Proof.
  intros (m & -> & [E|(meta & E & [E'|E'])]); simpl; rewrite E; simpl;
    try rewrite E'; reflexivity.
Qed.

(** The normalizer is a function of the values its chains of [get] reach. *)
Lemma normalize_payload (p : json) :
  rest_project_payload p = true ->
  exists m attributes recurring_tests issue_counts target_attributes
         integration_data importer_data owner_data,
    p = JObj m /\
    get_chain p ["attributes"] = Return (JObj attributes) /\
    get_chain p ["meta"; "latest_issue_counts"] = Return (JObj issue_counts) /\
    _rest_to_v1_response_format p =
      let at_ (d : dict) (k : string) (default : json) :=
        match lookup k d with Some x => x | None => default end in
      Return (JObj
        [ ("name", at_ attributes "name" JNull);
          ("id", at_ m "id" JNull);
          ("created", at_ attributes "created" JNull);
          ("origin", at_ attributes "origin" JNull);
          ("type", at_ attributes "type" JNull);
          ("readOnly", at_ attributes "read_only" JNull);
          ("testFrequency", at_ recurring_tests "frequency" JNull);
          ("lastTestedDate", at_ issue_counts "updated_at" JNull);
          ("isMonitored", JBool (py_eq (at_ attributes "status" JNull) (JStr "active")));
          ("issueCountsBySeverity",
            JObj [ ("low", at_ issue_counts "low" (JNum 0));
                   ("medium", at_ issue_counts "medium" (JNum 0));
                   ("high", at_ issue_counts "high" (JNum 0));
                   ("critical", at_ issue_counts "critical" (JNum 0)) ]);
          ("targetReference", at_ attributes "target_reference" JNull);
          ("branch", at_ attributes "target_reference" JNull);
          ("remoteRepoUrl", at_ target_attributes "url" JNull);
          ("imageCluster", at_ integration_data "cluster" JNull);
          ("_tags", at_ attributes "tags" (JArr []));
          ("importingUserId", at_ importer_data "id" JNull);
          ("owningUserId", at_ owner_data "id" JNull) ]).
Proof.
  unfold rest_project_payload. intros Hp.
  repeat (apply andb_prop in Hp; destruct Hp as [Hp ?]).
  destruct (objects_along_obj _ _ Hp) as [m ->].
  destruct (get_chain_along ["attributes"] ["settings"; "recurring_tests"] _ Hp)
    as (a & Ha & Ha').
  destruct (get_chain_along ["settings"] ["recurring_tests"] _ Ha') as (s & Hs & Hs').
  destruct (get_chain_obj _ _ Hs') as (rt & Hrt).
  destruct (objects_along_obj _ _ Ha') as [attributes ->].
  match goal with H : objects_along ["meta"; _] _ = true |- _ =>
    destruct (get_chain_obj _ _ H) as (ic & Hic) end.
  match goal with H : objects_along [_; _; _; "attributes"] _ = true |- _ =>
    destruct (get_chain_obj _ _ H) as (ta & Hta) end.
  match goal with H : objects_along [_; _; _; "meta"; _] _ = true |- _ =>
    destruct (get_chain_obj _ _ H) as (idt & Hidt) end.
  match goal with H : objects_along [_; "importer"; _] _ = true |- _ =>
    destruct (get_chain_obj _ _ H) as (imp & Himp) end.
  match goal with H : objects_along [_; "owner"; _] _ = true |- _ =>
    destruct (get_chain_obj _ _ H) as (own & Hown) end.
  exists m, attributes, rt, ic, ta, idt, imp, own.
  split; [reflexivity|]. split; [assumption|]. split; [assumption|].
  unfold _rest_to_v1_response_format.
  rewrite Ha. cbn [obind]. rewrite Hs. cbn [obind]. rewrite Hrt. cbn [obind].
  rewrite Hic. cbn [obind]. rewrite Hta. cbn [obind]. rewrite py_get_obj. cbn [obind].
  rewrite Hidt. cbn [obind]. rewrite !py_get_obj. cbn [obind].
  rewrite Himp. cbn [obind]. rewrite py_get_obj. cbn [obind].
  rewrite Hown. cbn [obind]. rewrite py_get_obj. cbn [obind].
  reflexivity.
Qed.

Lemma attribute_of_chain (m attributes : dict) (k : string) :
  get_chain (JObj m) ["attributes"] = Return (JObj attributes) ->
  attribute_of (JObj m) k = match lookup k attributes with Some v => v | None => JNull end.
Proof.
  simpl. destruct (lookup "attributes" m) as [a|]; simpl; intros E.
  - destruct a; inversion E; subst; reflexivity.
  - inversion E; subst; reflexivity.
Qed.

(** C4.  The normalizer returns on every REST project payload, whichever of
    the nested keys it walks through are missing; and when
    [meta.latest_issue_counts] is absent or empty, the four fields of
    [issueCountsBySeverity] (low, medium, high, critical) are all 0. *)
Theorem normalize_total (p : json) :
  rest_project_payload p = true ->
  exists view,
    _rest_to_v1_response_format p = Return (JObj view) /\
    (no_issue_counts p ->
     lookup "issueCountsBySeverity" view =
       Some (JObj [ ("low", JNum 0); ("medium", JNum 0); ("high", JNum 0);
                    ("critical", JNum 0) ])).
Proof.
  intros Hp.
  destruct (normalize_payload p Hp)
    as (m & attributes & rt & ic & ta & idt & imp & own & -> & Ha & Hic & Hn).
  eexists. split; [exact Hn|].
  intros Hnone. apply no_issue_counts_chain in Hnone.
  rewrite Hnone in Hic. inversion Hic; subst ic. reflexivity.
Qed.

Lemma normalize_total_witness :
  exists view,
    _rest_to_v1_response_format bare_project = Return (JObj view) /\
    lookup "issueCountsBySeverity" view =
      Some (JObj [ ("low", JNum 0); ("medium", JNum 0); ("high", JNum 0);
                   ("critical", JNum 0) ]).
Proof.
  destruct (normalize_total bare_project eq_refl) as (view & Hview & Hcounts).
  exists view. split; [exact Hview|].
  apply Hcounts. eexists. split; [reflexivity|]. left. reflexivity.
Defined.

(** C8.  On every REST project payload the normalized view has
    [isMonitored] true exactly when [attributes.status] is ["active"], and
    [branch] holds the same value as [targetReference], both being
    [attributes.target_reference]. *)
Theorem normalize_monitored_branch (p : json) :
  rest_project_payload p = true ->
  exists view,
    _rest_to_v1_response_format p = Return (JObj view) /\
    (exists b, lookup "isMonitored" view = Some (JBool b) /\
               (b = true <-> attribute_of p "status" = JStr "active")) /\
    lookup "targetReference" view = Some (attribute_of p "target_reference") /\
    lookup "branch" view = lookup "targetReference" view.
Proof.
  intros Hp.
  destruct (normalize_payload p Hp)
    as (m & attributes & rt & ic & ta & idt & imp & own & -> & Ha & Hic & Hn).
  eexists. split; [exact Hn|].
  rewrite !(attribute_of_chain _ _ _ Ha).
  split; [|split; reflexivity].
  eexists. split; [reflexivity|]. apply py_eq_str.
Qed.

Lemma normalize_monitored_branch_witness :
  exists view,
    _rest_to_v1_response_format bare_project = Return (JObj view) /\
    (exists b, lookup "isMonitored" view = Some (JBool b) /\
               (b = true <-> attribute_of bare_project "status" = JStr "active")) /\
    lookup "targetReference" view = Some (attribute_of bare_project "target_reference") /\
    lookup "branch" view = lookup "targetReference" view.
Proof. apply (normalize_monitored_branch bare_project). reflexivity. Defined.

Lemma py_get_returns (v : json) (k : string) (d a : json) :
  py_get v k d = Return a -> objects_along [] v = true.
Proof. destruct v; cbn; try discriminate. reflexivity. Qed.

(** A chain of [get] that returns went through dicts only. *)
Lemma get_chain_returns (ks1 ks2 : list string) :
  forall v x, get_chain v ks1 = Return x ->
    objects_along ks2 x = true -> objects_along (ks1 ++ ks2) v = true.
Proof.
  induction ks1 as [|k ks1 IH]; intros v x Hx Ho; cbn [get_chain app] in *.
  - inversion Hx. subst. assumption.
  - destruct v; cbn [py_get obind] in Hx; try discriminate.
    cbn [objects_along]. destruct (lookup k m) as [y|]; [|reflexivity].
    apply (IH _ _ Hx Ho).
Qed.

(** Every step of the normalizer is a [get]: it returns or raises
    [AttributeError], and so does the normalizer. *)
Lemma py_get_outcome (v : json) (k : string) (d : json) :
  (exists x, py_get v k d = Return x) \/ py_get v k d = Raise AttributeError.
Proof. destruct v; cbn [py_get]; eauto. Qed.

Lemma get_chain_outcome (ks : list string) :
  forall v, (exists x, get_chain v ks = Return x) \/
            get_chain v ks = Raise AttributeError.
Proof.
  induction ks as [|k ks IH]; intros v; cbn [get_chain].
  - left. eauto.
  - destruct v; cbn [py_get obind]; auto.
Qed.

Lemma obind_outcome {A B} (c : outcome A) (k : A -> outcome B) :
  (exists x, c = Return x) \/ c = Raise AttributeError ->
  (forall a, (exists y, k a = Return y) \/ k a = Raise AttributeError) ->
  (exists y, obind c k = Return y) \/ obind c k = Raise AttributeError.
Proof. intros [[x ->]| ->] Hk; cbn [obind]; auto. Qed.

Lemma normalize_outcome (p : json) :
  (exists view, _rest_to_v1_response_format p = Return view)
  \/ _rest_to_v1_response_format p = Raise AttributeError.
Proof.
  unfold _rest_to_v1_response_format.
  repeat (apply obind_outcome;
          [first [apply get_chain_outcome | apply py_get_outcome]|intros ?]).
  left. eauto.
Qed.

Ltac step_normalizer H :=
  repeat match type of H with
    | obind ?c _ = Return _ =>
        let x := fresh "x" in
        let E := fresh "E" in
        destruct c as [x| |] eqn:E; cbn [obind] in H; [|discriminate H..]
    end.

Lemma normalize_returns_shape (p view : json) :
  _rest_to_v1_response_format p = Return view -> rest_project_payload p = true.
Proof.
  intros Hn. unfold _rest_to_v1_response_format in Hn.
  step_normalizer Hn.
  repeat match goal with
    | Hg : py_get _ _ _ = Return _ |- _ => apply py_get_returns in Hg
    end.
  unfold rest_project_payload.
  repeat match goal with
    | |- _ && _ = true => apply andb_true_intro; split
    end.
  - eapply (get_chain_returns ["attributes"] ["settings"; "recurring_tests"]);
      [eassumption|].
    eapply (get_chain_returns ["settings"] ["recurring_tests"]); [eassumption|].
    eapply (get_chain_returns ["recurring_tests"] []); eassumption.
  - eapply (get_chain_returns ["meta"; "latest_issue_counts"] []); eassumption.
  - eapply (get_chain_returns ["relationships"; "target"; "data"; "attributes"] []);
      eassumption.
  - eapply (get_chain_returns
              ["relationships"; "target"; "data"; "meta"; "integration_data"] []);
      eassumption.
  - eapply (get_chain_returns ["relationships"; "importer"; "data"] []); eassumption.
  - eapply (get_chain_returns ["relationships"; "owner"; "data"] []); eassumption.
Qed.

(** X8.  The normalizer returns on a payload exactly when every nested
    mapping it walks through ([attributes], [attributes.settings],
    [meta.latest_issue_counts], [relationships.target.data], ...) is a dict
    when present; on every other payload it raises [AttributeError]. *)
Theorem normalize_returns_iff (p : json) :
  ((exists view, _rest_to_v1_response_format p = Return view)
   <-> rest_project_payload p = true)
  /\ (rest_project_payload p = false <->
      _rest_to_v1_response_format p = Raise AttributeError).
Proof.
  assert (Hfwd : rest_project_payload p = true ->
                 exists view, _rest_to_v1_response_format p = Return view).
  { intros Hp. destruct (normalize_payload p Hp)
      as (m & a & rt & ic & ta & idt & imp & own & _ & _ & _ & Hn). eauto. }
  split; split.
  - intros [view Hv]. exact (normalize_returns_shape p view Hv).
  - exact Hfwd.
  - intros Hp. destruct (normalize_outcome p) as [[view Hv]|Hr]; [|assumption].
    rewrite (normalize_returns_shape p view Hv) in Hp. discriminate.
  - intros Hr. destruct (rest_project_payload p) eqn:Hp; [|reflexivity].
    destruct (Hfwd eq_refl) as [view Hv]. congruence.
Qed.

End NormalizerFacts.

(** ** The default lookup of a manager *)

Module ManagerFacts.
Import Py Client Managers Shapes PyFacts Fixtures.

Section DefaultGet.
Context {T : Type} `{Model T}.

Lemma first_with_id_found (id : json) (items : list T) :
  (exists x, In x items /\ py_eq (item_id x) id = true) ->
  exists x, first_with_id id items = Return x /\
            In x items /\ py_eq (item_id x) id = true.
Proof.
  induction items as [|y items IH]; intros (x & Hin & Hx).
  - destruct Hin.
  - simpl. destruct (py_eq (item_id y) id) eqn:Hy.
    + exists y. repeat split; [left; reflexivity | assumption].
    + destruct Hin as [->|Hin]; [congruence|].
      destruct IH as (z & Hz & Hzin & Hzid); [eauto|].
      exists z. repeat split; [assumption | right; assumption | assumption].
Qed.

Lemma first_with_id_absent (id : json) (items : list T) :
  (forall x, In x items -> py_eq (item_id x) id = false) ->
  first_with_id id items = Raise SnykNotFoundError.
Proof.
  induction items as [|y items IH]; intros Hall; simpl; [reflexivity|].
  rewrite (Hall y (or_introl eq_refl)). apply IH.
  intros x Hx. apply Hall. right. assumption.
Qed.

(** C5.  With the default [get]: when [all()] returns [items], [get(id)]
    returns an item [x] of [items] with [x.id == id] for every [id] that
    some item carries, and raises [SnykNotFoundError] for every [id] that
    no item carries. *)
Theorem Manager_get_roundtrip (all : M (list T)) (log log' : list request)
    (items : list T) (id : json) :
  all log = (Return items, log') ->
  ((exists x, In x items /\ py_eq (item_id x) id = true) ->
   exists x, Manager_get all id log = (Return x, log') /\
             In x items /\ py_eq (item_id x) id = true)
  /\
  ((forall x, In x items -> py_eq (item_id x) id = false) ->
   Manager_get all id log = (Raise SnykNotFoundError, log')).
Proof.
  intros Hall. unfold Manager_get, bind, lift. rewrite Hall. split.
  - intros Hex. destruct (first_with_id_found id items Hex) as (x & -> & Hin & Hid).
    exists x. auto.
  - intros Hnone. rewrite (first_with_id_absent id items Hnone). reflexivity.
Qed.




End DefaultGet.

Lemma Manager_get_roundtrip_witness :
  (exists x, Manager_get (ret two_items) (JStr "b") [] = (Return x, []) /\
             In x two_items /\ py_eq (item_id x) (JStr "b") = true)
  /\ Manager_get (ret two_items) (JStr "z") [] = (Raise SnykNotFoundError, []).
Proof.
  destruct (Manager_get_roundtrip (ret two_items) [] [] two_items (JStr "b") eq_refl)
    as [Hfound _].
  destruct (Manager_get_roundtrip (ret two_items) [] [] two_items (JStr "z") eq_refl)
    as [_ Habsent].
  split.
  - apply Hfound. exists (JObj [("id", JStr "b")]). split; [right; left|]; reflexivity.
  - apply Habsent. intros x [<-|[<-|[]]]; reflexivity.
Defined.


End ManagerFacts.

(** ** The page walker *)

Module WalkerFacts.
Import Py Client Managers Shapes PyFacts Fixtures.

(** Runs the binds whose first part is a plain value. *)
Ltac mret :=
  cbv beta iota;
  repeat match goal with
    | |- context [bind (lift (Return ?a)) ?k ?lg] =>
        change (bind (lift (Return a)) k lg) with (k a lg); cbv beta iota
    | |- context [bind (ret ?a) ?k ?lg] =>
        change (bind (ret a) k lg) with (k a lg); cbv beta iota
    | |- context [bind (bind (lift (Return ?a)) ?f) ?k ?lg] =>
        change (bind (bind (lift (Return a)) f) k lg) with (bind (f a) k lg); cbv beta iota
    end.

Section Walker.
Context `{Backend} (self : SnykClient).

Lemma links_of_get (p : json) (l : dict) :
  links_of p = Some l -> py_get p "links" (JObj []) = Return (JObj l).
Proof.
  destruct p; simpl; try discriminate.
  destruct (lookup "links" m) as [[]|]; intros E; inversion E; reflexivity.
Qed.

Lemma links_of_getitem (p : json) (l : dict) (n : json) :
  links_of p = Some l -> lookup "next" l = Some n ->
  py_getitem p "links" = Return (JObj l).
Proof.
  destruct p; simpl; try discriminate.
  destruct (lookup "links" m) as [[]|]; intros E; inversion E; subst;
    try reflexivity.
  simpl. discriminate.
Qed.

Lemma bind_eq {A B} (c : M A) (k : A -> M B) (a : A) (log log' : list request) :
  c log = (Return a, log') -> bind c k log = k a log'.
Proof. intros E. unfold bind. rewrite E. reflexivity. Qed.

(** One test of the loop condition on a page without a "next" link. *)
Lemma loop_no_next (fuel : nat) (p acc : json) (log : list request) :
  no_next_link p ->
  rest_pages_loop (S fuel) self p acc log = (Return acc, log).
Proof.
  intros (l & Hl & Hn). cbn [rest_pages_loop].
  rewrite (links_of_get _ _ Hl). mret.
  cbn [py_get]. rewrite Hn. mret. reflexivity.
Qed.

(** One test of the loop condition on a page whose "next" is its "self". *)
Lemma loop_next_is_self (fuel : nat) (p acc : json) (log : list request) :
  next_is_self p ->
  rest_pages_loop (S fuel) self p acc log = (Return acc, log).
Proof.
  intros (l & n & s & Hl & Hn & Hs & Heq). cbn [rest_pages_loop].
  rewrite (links_of_get _ _ Hl). mret.
  cbn [py_get]. rewrite Hn. mret.
  destruct (truthy n); [|reflexivity].
  rewrite (links_of_getitem _ _ _ Hl Hn). mret.
  cbn [py_in]. unfold mem. rewrite Hn, Hs. mret.
  cbn [py_getitem]. rewrite Hn, Hs. mret. rewrite Heq. reflexivity.
Qed.

(** One turn of the loop on a page whose "next" link is followed: the
    next page is requested, and what happens then depends on it. *)
Lemma loop_follow (fuel : nat) (p acc n q : json) (r : request)
    (log : list request) :
  follows_next p n ->
  build_request self n None None true = Return r ->
  transport log r = Return q ->
  rest_pages_loop (S fuel) self p acc log =
    (has_data <- lift (py_in "data" q) ;;
     if has_data then
       data <- lift (py_getitem q "data") ;;
       n <- lift (py_len data) ;;
       if Nat.eqb n 0 then ret acc
       else
         return_data <- lift (py_extend acc data) ;;
         rest_pages_loop fuel self q return_data
     else ret acc) (log ++ [r])%list.
Proof.
  intros (l & Hl & Hn & Ht & Hself) Hr Hq.
  cbn [rest_pages_loop].
  rewrite (links_of_get _ _ Hl). mret.
  cbn [py_get]. rewrite Hn. mret. rewrite Ht.
  rewrite (links_of_getitem _ _ _ Hl Hn). mret.
  cbn [py_in]. unfold mem. rewrite Hn. mret.
  assert (Hsame :
    match lookup "self" l with
    | Some _ => py_eq n match lookup "self" l with Some s => s | None => JNull end
    | None => false
    end = false).
  { destruct Hself as [Hs|(s & Hs & Hne)]; rewrite Hs; [reflexivity|assumption]. }
  cbn [py_getitem]. rewrite Hn.
  destruct (lookup "self" l) as [s|]; mret; [rewrite Hsame|];
    unfold get; rewrite Hr; mret;
    (erewrite bind_eq; [reflexivity|]); unfold send; rewrite Hq; reflexivity.
Qed.

(** A followed link to a page that carries items: the items are
    appended and the loop goes on from that page. *)
Lemma loop_items (fuel : nat) (p n q : json) (a : list json) (r : request)
    (log : list request) :
  follows_next p n ->
  build_request self n None None true = Return r ->
  transport log r = Return q ->
  has_items q ->
  rest_pages_loop (S fuel) self p (JArr a) log =
    rest_pages_loop fuel self q (JArr (a ++ page_items q)) (log ++ [r])%list.
Proof.
  intros Hf Hr Hq (m & x & xs & -> & Hd).
  rewrite (loop_follow _ _ _ _ _ _ _ Hf Hr Hq).
  cbn [py_in py_getitem page_items]. unfold mem. rewrite Hd. mret.
  reflexivity.
Qed.

(** A followed link to a page without "data", or with an empty "data"
    list: the loop ends with what was collected before. *)
Lemma loop_end_of_stream (fuel : nat) (p acc n q : json) (r : request)
    (log : list request) :
  follows_next p n ->
  build_request self n None None true = Return r ->
  transport log r = Return q ->
  lacks_data q \/ empty_data q ->
  rest_pages_loop (S fuel) self p acc log = (Return acc, (log ++ [r])%list).
Proof.
  intros Hf Hr Hq Hend.
  rewrite (loop_follow _ _ _ _ _ _ _ Hf Hr Hq).
  destruct Hend as [(m & -> & Hd)|(m & -> & Hd)];
    cbn [py_in py_getitem]; unfold mem; rewrite Hd; mret; reflexivity.
Qed.

Lemma last_cons {A} (x d : A) (l : list A) : last (x :: l) d = last l x.
Proof.
  revert x d. induction l as [|y l IH]; intros x d; [reflexivity|].
  change (last (x :: y :: l) d) with (last (y :: l) d).
  rewrite !IH. reflexivity.
Qed.

(** The loop along a chain of fetched pages. *)
Lemma loop_walk (log log' : list request) (p : json) (qs : list json) :
  walk self log p qs log' ->
  forall (a : list json) (fuel : nat),
    rest_pages_loop (length qs + fuel) self p (JArr a) log =
      rest_pages_loop fuel self (last qs p)
        (JArr (a ++ concat (map page_items qs))) log'.
Proof.
  induction 1 as [log p|log p n r q qs log' Hf Hr Hq Hi Hw IH]; intros a fuel.
  - cbn [length map concat last Nat.add]. rewrite app_nil_r. reflexivity.
  - cbn [length Nat.add map concat].
    rewrite (loop_items _ _ _ _ _ _ _ Hf Hr Hq Hi), IH, last_cons, app_assoc.
    reflexivity.
Qed.

Lemma walk_length (log log' : list request) (p : json) (qs : list json) :
  walk self log p qs log' -> length log' = length log + length qs.
Proof.
  induction 1 as [log p|log p n r q qs log' Hf Hr Hq Hi Hw IH].
  - cbn [length]. lia.
  - rewrite IH, length_app. cbn [length]. lia.
Qed.

(** The first fetch of [get_rest_pages]. *)
Lemma first_fetch (fuel : nat) (path : string) (params : dict)
    (log : list request) (r0 : request) (p0 : json) :
  build_request self (JStr path) (Some params) None true = Return r0 ->
  transport log r0 = Return p0 ->
  get_rest_pages fuel self path params log =
    (return_data <- lift (py_getitem p0 "data") ;;
     rest_pages_loop fuel self p0 return_data) (log ++ [r0])%list.
Proof.
  intros Hr Hp. unfold get_rest_pages, get. rewrite Hr. mret.
  erewrite bind_eq; [reflexivity|]. unfold send. rewrite Hp. reflexivity.
Qed.

(** The first page has no "data" field: the subscript raises. *)
Lemma first_page_lacks_data (fuel : nat) (path : string) (params : dict)
    (log : list request) (r0 : request) (p0 : json) :
  build_request self (JStr path) (Some params) None true = Return r0 ->
  transport log r0 = Return p0 ->
  lacks_data p0 ->
  get_rest_pages fuel self path params log =
    (Raise (KeyError "data"), (log ++ [r0])%list).
Proof.
  intros Hr Hp (m & -> & Hd). rewrite (first_fetch _ _ _ _ _ _ Hr Hp).
  cbn [py_getitem]. rewrite Hd. reflexivity.
Qed.

(** The walk up to the last page of a chain. *)
Lemma get_rest_pages_walk (fuel : nat) (path : string) (params : dict)
    (log log' : list request) (r0 : request) (p0 : json) (qs : list json) :
  build_request self (JStr path) (Some params) None true = Return r0 ->
  transport log r0 = Return p0 ->
  has_data_list p0 ->
  walk self (log ++ [r0])%list p0 qs log' ->
  get_rest_pages (length qs + fuel) self path params log =
    rest_pages_loop fuel self (last qs p0)
      (JArr (concat (map page_items (p0 :: qs)))) log'.
Proof.
  intros Hr Hp (m & d & -> & Hd) Hw. rewrite (first_fetch _ _ _ _ _ _ Hr Hp).
  cbn [py_getitem]. rewrite Hd. mret. rewrite (loop_walk _ _ _ _ Hw).
  cbn [map concat page_items]. rewrite Hd. reflexivity.
Qed.

(** C1.  When the transport returns a chain of pages, each after the
    first fetched through the "next" link of the one before, and the last
    of them has no "next" link, [get_rest_pages] returns the items of all
    the pages, concatenated in the order of the fetches, nothing removed,
    and has issued one request per page. *)
Theorem get_rest_pages_concat (fuel : nat) (path : string) (params : dict)
    (log log' : list request) (r0 : request) (p0 : json) (qs : list json) :
  build_request self (JStr path) (Some params) None true = Return r0 ->
  transport log r0 = Return p0 ->
  has_data_list p0 ->
  walk self (log ++ [r0])%list p0 qs log' ->
  no_next_link (last qs p0) ->
  length qs < fuel ->
  get_rest_pages fuel self path params log =
    (Return (JArr (concat (map page_items (p0 :: qs)))), log')
  /\ length log' = length log + length (p0 :: qs).
Proof.
  intros Hr Hp Hd Hw Hlast Hfuel. split.
  - replace fuel with (length qs + S (fuel - length qs - 1)) by lia.
    rewrite (get_rest_pages_walk _ _ _ _ _ _ _ _ Hr Hp Hd Hw).
    apply loop_no_next. assumption.
  - rewrite (walk_length _ _ _ _ Hw), length_app. cbn [length]. lia.
Qed.

(** C2.  A first page without a "data" field makes [get_rest_pages] raise
    (the [KeyError] of the subscript [page_data["data"]]); a later page
    without a "data" field, or with an empty "data" list, ends the walk,
    which returns the items collected up to then. *)
Theorem missing_data_policy (fuel : nat) (path : string) (params : dict)
    (log : list request) (r0 : request) (p0 : json) :
  build_request self (JStr path) (Some params) None true = Return r0 ->
  transport log r0 = Return p0 ->
  (lacks_data p0 ->
   get_rest_pages fuel self path params log =
     (Raise (KeyError "data"), (log ++ [r0])%list))
  /\
  (forall (qs : list json) (log' : list request) (n q : json) (r : request),
     has_data_list p0 ->
     walk self (log ++ [r0])%list p0 qs log' ->
     follows_next (last qs p0) n ->
     build_request self n None None true = Return r ->
     transport log' r = Return q ->
     lacks_data q \/ empty_data q ->
     length qs < fuel ->
     get_rest_pages fuel self path params log =
       (Return (JArr (concat (map page_items (p0 :: qs)))), (log' ++ [r])%list)).
Proof.
  intros Hr Hp. split.
  - apply first_page_lacks_data; assumption.
  - intros qs log' n q r Hd Hw Hf Hrn Hq Hend Hfuel.
    replace fuel with (length qs + S (fuel - length qs - 1)) by lia.
    rewrite (get_rest_pages_walk _ _ _ _ _ _ _ _ Hr Hp Hd Hw).
    apply (loop_end_of_stream _ _ _ _ _ _ _ Hf Hrn Hq Hend).
Qed.

(** C3.  When the walk reaches a page whose "next" link is present and
    equal to its "self" link, it stops there: no further request is
    issued, and the number of requests is the number of pages. *)
Theorem self_link_stops (fuel : nat) (path : string) (params : dict)
    (log log' : list request) (r0 : request) (p0 : json) (qs : list json) :
  build_request self (JStr path) (Some params) None true = Return r0 ->
  transport log r0 = Return p0 ->
  has_data_list p0 ->
  walk self (log ++ [r0])%list p0 qs log' ->
  next_is_self (last qs p0) ->
  length qs < fuel ->
  get_rest_pages fuel self path params log =
    (Return (JArr (concat (map page_items (p0 :: qs)))), log')
  /\ length log' = length log + length (p0 :: qs).
Proof.
  intros Hr Hp Hd Hw Hlast Hfuel. split.
  - replace fuel with (length qs + S (fuel - length qs - 1)) by lia.
    rewrite (get_rest_pages_walk _ _ _ _ _ _ _ _ Hr Hp Hd Hw).
    apply loop_next_is_self. assumption.
  - rewrite (walk_length _ _ _ _ Hw), length_app. cbn [length]. lia.
Qed.

(** One test of the loop condition on a page whose "next" link is
    falsy. *)
Lemma loop_falsy_next (fuel : nat) (p acc : json) (log : list request) :
  falsy_next p ->
  rest_pages_loop (S fuel) self p acc log = (Return acc, log).
Proof.
  intros (l & n & Hl & Hn & Ht). cbn [rest_pages_loop].
  rewrite (links_of_get _ _ Hl). mret.
  cbn [py_get]. rewrite Hn. mret. rewrite Ht. reflexivity.
Qed.

(** X5.  A "next" link that is present but falsy, such as [null] or the
    empty string, ends the walk like a missing one: the items of the pages
    fetched so far are returned and no further request is issued. *)
Theorem falsy_next_stops (fuel : nat) (path : string) (params : dict)
    (log log' : list request) (r0 : request) (p0 : json) (qs : list json) :
  build_request self (JStr path) (Some params) None true = Return r0 ->
  transport log r0 = Return p0 ->
  has_data_list p0 ->
  walk self (log ++ [r0])%list p0 qs log' ->
  falsy_next (last qs p0) ->
  length qs < fuel ->
  get_rest_pages fuel self path params log =
    (Return (JArr (concat (map page_items (p0 :: qs)))), log').
Proof.
  intros Hr Hp Hd Hw Hlast Hfuel.
  replace fuel with (length qs + S (fuel - length qs - 1)) by lia.
  rewrite (get_rest_pages_walk _ _ _ _ _ _ _ _ Hr Hp Hd Hw).
  apply loop_falsy_next. assumption.
Qed.

(** One turn of the loop on a page whose "next" link is followed, when the
    transport fails on it. *)
Lemma loop_fetch_fails (fuel : nat) (p acc n : json) (r : request) (e : exn)
    (log : list request) :
  follows_next p n ->
  build_request self n None None true = Return r ->
  transport log r = Raise e ->
  rest_pages_loop (S fuel) self p acc log = (Raise e, (log ++ [r])%list).
Proof.
  intros (l & Hl & Hn & Ht & Hself) Hr Hq.
  cbn [rest_pages_loop].
  rewrite (links_of_get _ _ Hl). mret.
  cbn [py_get]. rewrite Hn. mret. rewrite Ht.
  rewrite (links_of_getitem _ _ _ Hl Hn). mret.
  cbn [py_in]. unfold mem. rewrite Hn. mret.
  assert (Hsame :
    match lookup "self" l with
    | Some _ => py_eq n match lookup "self" l with Some s => s | None => JNull end
    | None => false
    end = false).
  { destruct Hself as [Hs|(s & Hs & Hne)]; rewrite Hs; [reflexivity|assumption]. }
  cbn [py_getitem]. rewrite Hn.
  destruct (lookup "self" l) as [s|]; mret; [rewrite Hsame|];
    unfold get; rewrite Hr; mret;
    unfold bind, send; rewrite Hq; reflexivity.
Qed.

(** X6.  When the transport fails on the fetch of a later page, the
    exception leaves [get_rest_pages]: the items of the pages fetched before
    are not returned. *)
Theorem fetch_failure_propagates (fuel : nat) (path : string) (params : dict)
    (log log' : list request) (r0 r : request) (p0 n : json) (qs : list json)
    (e : exn) :
  build_request self (JStr path) (Some params) None true = Return r0 ->
  transport log r0 = Return p0 ->
  has_data_list p0 ->
  walk self (log ++ [r0])%list p0 qs log' ->
  follows_next (last qs p0) n ->
  build_request self n None None true = Return r ->
  transport log' r = Raise e ->
  length qs < fuel ->
  get_rest_pages fuel self path params log = (Raise e, (log' ++ [r])%list).
Proof.
  intros Hr Hp Hd Hw Hf Hrn He Hfuel.
  replace fuel with (length qs + S (fuel - length qs - 1)) by lia.
  rewrite (get_rest_pages_walk _ _ _ _ _ _ _ _ Hr Hp Hd Hw).
  apply (loop_fetch_fails _ _ _ _ _ _ _ Hf Hrn He).
Qed.

(** Two pages that lead to each other keep the loop going whatever the
    budget. *)
Lemma loop_cycle (p q np nq : json) (rp rq : request) :
  has_items p -> has_items q ->
  follows_next p nq -> follows_next q np ->
  build_request self nq None None true = Return rq ->
  build_request self np None None true = Return rp ->
  (forall log, transport log rq = Return q) ->
  (forall log, transport log rp = Return p) ->
  forall fuel acc log,
    fst (rest_pages_loop fuel self p (JArr acc) log) = OutOfFuel
    /\ fst (rest_pages_loop fuel self q (JArr acc) log) = OutOfFuel.
Proof.
  intros Hp Hq Hfp Hfq Hrq Hrp Htq Htp.
  induction fuel as [|fuel IH]; intros acc log.
  - split; reflexivity.
  - rewrite (loop_items _ _ _ _ _ _ _ Hfp Hrq (Htq log) Hq).
    rewrite (loop_items _ _ _ _ _ _ _ Hfq Hrp (Htp log) Hp).
    split; apply IH.
Qed.

(** X7.  The guard on "next" equal to "self" does not see longer cycles:
    when the first page leads to a second page whose "next" link leads back
    to the first, and both carry items, [get_rest_pages] never returns,
    whatever the budget of loop turns. *)
Theorem two_page_cycle_diverges (path : string) (params : dict)
    (p q np nq : json) (r0 rp rq : request) :
  build_request self (JStr path) (Some params) None true = Return r0 ->
  has_items p -> has_items q ->
  follows_next p nq -> follows_next q np ->
  build_request self nq None None true = Return rq ->
  build_request self np None None true = Return rp ->
  (forall log, transport log r0 = Return p) ->
  (forall log, transport log rq = Return q) ->
  (forall log, transport log rp = Return p) ->
  forall fuel log, fst (get_rest_pages fuel self path params log) = OutOfFuel.
Proof.
  intros Hr0 Hp Hq Hfp Hfq Hrq Hrp Ht0 Htq Htp fuel log.
  rewrite (first_fetch _ _ _ _ _ _ Hr0 (Ht0 log)).
  destruct Hp as (m & x & xs & -> & Hd).
  cbn [py_getitem]. rewrite Hd. mret.
  apply (loop_cycle _ q np nq rp rq); try assumption.
  exists m, x, xs. split; [reflexivity|assumption].
Qed.

End Walker.

(** The scenario of three pages of ten items each, the third without a
    "next" link: thirty items, in the order of the pages, three requests. *)
Lemma get_rest_pages_concat_witness :
  exists log',
    @get_rest_pages demo_backend 3 demo_client "orgs/o/targets" [("limit", JNum 10)] []
      = (Return (JArr (numbers 1 30)), log')
    /\ length log' = 3.
Proof.
  pose (r0 := {| url := url_targets;
                 params := Some [("limit", JNum 10); ("version", JStr "2024-10-15")] |}).
  pose (r2 := {| url := url_page2; params := None |}).
  pose (r3 := {| url := url_page3; params := None |}).
  exists [r0; r2; r3].
  apply (@get_rest_pages_concat demo_backend demo_client 3 "orgs/o/targets"
           [("limit", JNum 10)] [] [r0; r2; r3] r0 page1 [page2; page3]).
  - reflexivity.
  - reflexivity.
  - do 2 eexists. split; reflexivity.
  - apply (@walk_step demo_backend demo_client _ _ (JStr url_page2) r2).
    + eexists. repeat split; try reflexivity.
      right. eexists. split; reflexivity.
    + reflexivity.
    + reflexivity.
    + do 3 eexists. split; reflexivity.
    + apply (@walk_step demo_backend demo_client _ _ (JStr url_page3) r3).
      * eexists. repeat split; try reflexivity.
        right. eexists. split; reflexivity.
      * reflexivity.
      * reflexivity.
      * do 3 eexists. split; reflexivity.
      * apply walk_done.
  - eexists. split; reflexivity.
  - cbn [length]. lia.
Defined.

Lemma missing_data_policy_witness :
  @get_rest_pages demo_backend 0 demo_client "orgs/o/none" [] []
    = (Raise (KeyError "data"),
       [ {| url := url_none; params := Some [("version", JStr "2024-10-15")] |} ])
  /\
  @get_rest_pages demo_backend 1 demo_client "orgs/o/short" [] []
    = (Return (JArr (numbers 1 2)),
       [ {| url := url_short; params := Some [("version", JStr "2024-10-15")] |};
         {| url := url_end; params := None |} ]).
Proof.
  split.
  - apply (@missing_data_policy demo_backend demo_client 0 "orgs/o/none" [] []
             {| url := url_none; params := Some [("version", JStr "2024-10-15")] |}
             (JObj []) eq_refl eq_refl).
    eexists. split; reflexivity.
  - apply (proj2 (@missing_data_policy demo_backend demo_client 1 "orgs/o/short" [] []
             {| url := url_short; params := Some [("version", JStr "2024-10-15")] |}
             short_page eq_refl eq_refl)
             [] [ {| url := url_short; params := Some [("version", JStr "2024-10-15")] |} ]
             (JStr url_end) end_page {| url := url_end; params := None |}).
    + do 2 eexists. split; reflexivity.
    + apply walk_done.
    + eexists. repeat split; try reflexivity. left. reflexivity.
    + reflexivity.
    + reflexivity.
    + left. eexists. split; reflexivity.
    + cbn [length]. lia.
Defined.

Lemma self_link_stops_witness :
  exists log',
    @get_rest_pages demo_backend 1 demo_client "orgs/o/loop" [] []
      = (Return (JArr (numbers 1 2)), log')
    /\ length log' = 1.
Proof.
  pose (r0 := {| url := url_loop; params := Some [("version", JStr "2024-10-15")] |}).
  exists [r0].
  apply (@self_link_stops demo_backend demo_client 1 "orgs/o/loop" [] [] [r0] r0
           loop_page []).
  - reflexivity.
  - reflexivity.
  - do 2 eexists. split; reflexivity.
  - apply walk_done.
  - do 3 eexists. repeat split; reflexivity.
  - cbn [length]. lia.
Defined.

Lemma falsy_next_stops_witness :
  @get_rest_pages demo_backend 1 demo_client "orgs/o/last" [] []
    = (Return (JArr (numbers 1 2)),
       [ {| url := url_last; params := Some [("version", JStr "2024-10-15")] |} ]).
Proof.
  apply (@falsy_next_stops demo_backend demo_client 1 "orgs/o/last" [] [] _
           {| url := url_last; params := Some [("version", JStr "2024-10-15")] |}
           last_page []).
  - reflexivity.
  - reflexivity.
  - do 2 eexists. split; reflexivity.
  - apply walk_done.
  - do 2 eexists. repeat split; reflexivity.
  - cbn [length]. lia.
Defined.

Lemma fetch_failure_propagates_witness :
  @get_rest_pages demo_backend 1 demo_client "orgs/o/broken" [] []
    = (Raise SnykHTTPError,
       [ {| url := url_broken; params := Some [("version", JStr "2024-10-15")] |};
         {| url := url_gone; params := None |} ]).
Proof.
  apply (@fetch_failure_propagates demo_backend demo_client 1 "orgs/o/broken" [] []
           [ {| url := url_broken; params := Some [("version", JStr "2024-10-15")] |} ]
           {| url := url_broken; params := Some [("version", JStr "2024-10-15")] |}
           {| url := url_gone; params := None |}
           broken_page (JStr url_gone) [] SnykHTTPError).
  - reflexivity.
  - reflexivity.
  - do 2 eexists. split; reflexivity.
  - apply walk_done.
  - eexists. repeat split; try reflexivity. left. reflexivity.
  - reflexivity.
  - reflexivity.
  - cbn [length]. lia.
Defined.

Lemma two_page_cycle_diverges_witness :
  fst (@get_rest_pages demo_backend 50 demo_client "orgs/o/ping" [] []) = OutOfFuel.
Proof.
  apply (@two_page_cycle_diverges demo_backend demo_client "orgs/o/ping" []
           ping_page pong_page (JStr url_ping) (JStr url_pong)
           {| url := url_ping; params := Some [("version", JStr "2024-10-15")] |}
           {| url := url_ping; params := None |}
           {| url := url_pong; params := None |}).
  - reflexivity.
  - do 3 eexists. split; reflexivity.
  - do 3 eexists. split; reflexivity.
  - eexists. repeat split; try reflexivity. right. eexists. split; reflexivity.
  - eexists. repeat split; try reflexivity. right. eexists. split; reflexivity.
  - reflexivity.
  - reflexivity.
  - reflexivity.
  - reflexivity.
  - reflexivity.
Defined.

End WalkerFacts.

(** ** The requests built by [get] *)

Module ClientFacts.
Import Py Client Managers Shapes PyFacts Fixtures.

Lemma lookup_lower_bools (k : string) (ps : dict) :
  lookup k (lower_bools ps) = option_map lowered (lookup k ps).
Proof.
  induction ps as [|[k0 v0] ps IH]; [reflexivity|].
  cbn [lower_bools map snd fst lookup] in *.
  destruct v0; cbn [lookup]; destruct (String.eqb k k0); try reflexivity; exact IH.
Qed.

Lemma lowered_not_bool (v : json) (b : bool) : lowered v <> JBool b.
Proof. destruct v; discriminate. Qed.

Lemma normalized_params (params : option dict) :
  match params with Some (kv :: ps) => kv :: ps | _ => [] end = given_params params.
Proof. destruct params as [[|kv ps]|]; reflexivity. Qed.

Section Requests.
Context `{Backend} (self : SnykClient).

(** C9, as the code has it.  For a GET request to the REST API ([rest]
    set, or a [version] given), every parameter given as a boolean goes
    out as the lowercase string "true" or "false", and no parameter of the
    request is a boolean. *)
Theorem rest_get_lowers_booleans (path : json) (params : option dict)
    (version : option string) (rest : bool) (r : request) :
  rest = true \/ opt_truthy version = true ->
  build_request self path params version rest = Return r ->
  bools_lowered (given_params params) r /\ no_bool_param r.
Proof.
  intros Hrest. unfold build_request.
  replace (if opt_truthy version then true else rest) with true
    by (destruct Hrest as [->| ->]; destruct (opt_truthy version); reflexivity).
  destruct (cleanup_path path) as [u| |]; cbn [obind]; try discriminate.
  rewrite normalized_params. set (given := given_params params).
  set (ps0 := if negb (mem "version" given) && negb (contains "version" u)
              then insert "version" _ given else given).
  destruct (contains "snyk.io" u); intros E; inversion E; subst r; clear E.
  - split; intros ps Hps; discriminate.
  - split; intros ps Hps; inversion Hps; subst ps; clear Hps; intros k b.
    + intros Hk. rewrite lookup_lower_bools.
      assert (Hk0 : lookup k ps0 = Some (JBool b)).
      { subst ps0. destruct (negb (mem "version" given) && negb (contains "version" u))
          eqn:Hins; [|assumption].
        apply andb_prop in Hins. destruct Hins as [Hmem _].
        rewrite lookup_insert_ne; [assumption|].
        intros ->. unfold mem in Hmem. rewrite Hk in Hmem. discriminate. }
      rewrite Hk0. reflexivity.
    + rewrite lookup_lower_bools. destruct (lookup k ps0) as [v|]; cbn [option_map].
      * intros E. inversion E as [E']. exact (lowered_not_bool _ _ E').
      * discriminate.
Qed.

(** X3.  A GET request to the REST API that carries parameters carries
    every parameter it was given, other than "version", under the same key:
    a boolean as its lowercase string, any other value unchanged. *)
Theorem rest_get_keeps_params (path : json) (params : option dict)
    (version : option string) (r : request) (ps : dict) (k : string) (v : json) :
  build_request self path params version true = Return r ->
  Client.params r = Some ps ->
  k <> "version" ->
  lookup k (given_params params) = Some v ->
  lookup k ps = Some (lowered v).
Proof.
  unfold build_request.
  replace (if opt_truthy version then true else true) with true
    by (destruct (opt_truthy version); reflexivity).
  destruct (cleanup_path path) as [u| |]; cbn [obind]; try discriminate.
  rewrite normalized_params.
  destruct (contains "snyk.io" u); intros E; inversion E; subst r; clear E;
    cbn [Client.params]; intros Hps Hk Hv; inversion Hps; subst ps; clear Hps.
  rewrite lookup_lower_bools.
  destruct (negb (mem "version" (given_params params)) && negb (contains "version" u)).
  - rewrite (lookup_insert_ne _ _ _ _ Hk), Hv. reflexivity.
  - rewrite Hv. reflexivity.
Qed.

(** X11.  The "version" parameter of a GET request to the REST API that
    carries parameters: the caller's own "version" parameter when one was
    given; none when the cleaned path contains the text "version"; else the
    [version] argument when it is a non-empty string, else the version of
    the client (which may be [None]). *)
Theorem rest_get_version_param (path : json) (params : option dict)
    (version : option string) (r : request) (ps : dict) (u : string) :
  cleanup_path path = Return u ->
  build_request self path params version true = Return r ->
  Client.params r = Some ps ->
  lookup "version" ps =
    match lookup "version" (given_params params) with
    | Some v => Some (lowered v)
    | None =>
        if contains "version" u then None
        else Some (if opt_truthy version then opt_json version
                   else opt_json self.(Client.version))
    end.
Proof.
  intros Hu. unfold build_request. rewrite Hu. cbn [obind].
  replace (if opt_truthy version then true else true) with true
    by (destruct (opt_truthy version); reflexivity).
  rewrite normalized_params.
  destruct (contains "snyk.io" u); intros E; inversion E; subst r; clear E;
    cbn [Client.params]; intros Hps; inversion Hps; subst ps; clear Hps.
  rewrite lookup_lower_bools. unfold mem.
  destruct (lookup "version" (given_params params)) as [v|] eqn:Hv;
    cbn [negb andb].
  - rewrite Hv. reflexivity.
  - destruct (contains "version" u); cbn [negb].
    + rewrite Hv. reflexivity.
    + rewrite lookup_insert_eq. cbn [option_map].
      destruct (opt_truthy version); [destruct version|destruct (Client.version self)];
        reflexivity.
Qed.

End Requests.

Lemma rest_get_keeps_params_witness :
  lookup "limit" [("limit", JNum 10); ("version", JStr "2024-10-15")]
    = Some (lowered (JNum 10)).
Proof.
  apply (@rest_get_keeps_params demo_backend demo_client (JStr "orgs/o/targets")
           (Some [("limit", JNum 10)]) None
           {| url := url_targets;
              params := Some [("limit", JNum 10); ("version", JStr "2024-10-15")] |}).
  - reflexivity.
  - reflexivity.
  - discriminate.
  - reflexivity.
Defined.

Lemma rest_get_version_param_witness :
  lookup "version" [("limit", JNum 10); ("version", JStr "2024-10-15")]
    = Some (JStr "2024-10-15").
Proof.
  apply (@rest_get_version_param demo_backend demo_client (JStr "orgs/o/targets")
           (Some [("limit", JNum 10)]) None
           {| url := url_targets;
              params := Some [("limit", JNum 10); ("version", JStr "2024-10-15")] |}
           _ "orgs/o/targets"); reflexivity.
Defined.

Lemma rest_get_lowers_booleans_witness :
  exists r,
    @build_request demo_backend demo_client (JStr "orgs/o/targets")
      (Some [("excludeEmpty", JBool true)]) None true = Return r
    /\ Client.params r =
         Some [("excludeEmpty", JStr "true"); ("version", JStr "2024-10-15")]
    /\ bools_lowered [("excludeEmpty", JBool true)] r /\ no_bool_param r.
Proof.
  eexists. split; [reflexivity|]. split; [reflexivity|].
  apply (@rest_get_lowers_booleans demo_backend demo_client (JStr "orgs/o/targets")
           (Some [("excludeEmpty", JBool true)]) None true).
  - left. reflexivity.
  - reflexivity.
Defined.

(** A GET request to the v1 API carries a boolean parameter as it was
    given: the claim that every GET request has its booleans lowered does
    not hold. *)
Lemma v1_get_keeps_booleans :
  exists r,
    @build_request demo_backend demo_client (JStr "orgs")
      (Some [("flag", JBool true)]) None false = Return r
    /\ ~ bools_lowered [("flag", JBool true)] r.
Proof.
  eexists. split; [reflexivity|].
  intros Hl. specialize (Hl _ eq_refl "flag" true eq_refl). discriminate.
Qed.

End ClientFacts.

(** ** [OrganizationManager.all] *)

Module OrganizationFacts.
Import Py Client Managers Shapes PyFacts Fixtures WalkerFacts.

Section Organizations.
Context `{Backend} {Org : Type} `{Model Org} (client : SnykClient).

Lemma orgs_key_missing (log : list request) (r : request) (body : dict) :
  build_request client (JStr "orgs") None None false = Return r ->
  transport log r = Return (JObj body) ->
  lookup "orgs" body = None ->
  OrganizationManager_all (Org := Org) client log = (Return [], (log ++ [r])%list).
Proof.
  intros Hr Hb Hk. unfold OrganizationManager_all, get. rewrite Hr. mret.
  erewrite bind_eq; [|unfold send; rewrite Hb; reflexivity].
  cbn [py_in]. unfold mem. rewrite Hk. mret. reflexivity.
Qed.

(** C10.  When the body of the response has no "orgs" key,
    [OrganizationManager.all] returns the empty list and raises nothing;
    whereas [get_rest_pages] raises when its first page has no "data"
    key. *)
Theorem orgs_missing_is_empty (fuel : nat) (path : string) (params : dict)
    (log : list request) (r r0 : request) (body : dict) (p0 : json) :
  build_request client (JStr "orgs") None None false = Return r ->
  transport log r = Return (JObj body) ->
  lookup "orgs" body = None ->
  build_request client (JStr path) (Some params) None true = Return r0 ->
  transport log r0 = Return p0 ->
  lacks_data p0 ->
  OrganizationManager_all (Org := Org) client log = (Return [], (log ++ [r])%list)
  /\ get_rest_pages fuel client path params log =
       (Raise (KeyError "data"), (log ++ [r0])%list).
Proof.
  intros Hr Hb Hk Hr0 Hp0 Hd. split.
  - apply (orgs_key_missing log r body); assumption.
  - apply (first_page_lacks_data client fuel path params log r0 p0); assumption.
Qed.

End Organizations.

Lemma orgs_missing_is_empty_witness :
  @OrganizationManager_all demo_backend json json_model demo_client []
    = (Return [], [ {| url := url_orgs; params := Some [] |} ])
  /\ @get_rest_pages demo_backend 5 demo_client "orgs/o/none" [] []
       = (Raise (KeyError "data"),
          [ {| url := url_none; params := Some [("version", JStr "2024-10-15")] |} ]).
Proof.
  apply (@orgs_missing_is_empty demo_backend json json_model demo_client 5
           "orgs/o/none" [] []
           {| url := url_orgs; params := Some [] |}
           {| url := url_none; params := Some [("version", JStr "2024-10-15")] |}
           [] (JObj [])); try reflexivity.
  eexists. split; reflexivity.
Defined.

End OrganizationFacts.


(** ** [ProjectManager.filter] and its tags *)

Module ProjectFacts.
Import Py Client Managers Shapes PyFacts Fixtures WalkerFacts ClientFacts.

Lemma validate_tags_ok (tags : list tag) :
  existsb malformed tags = false -> validate_tags tags = Return tt.
Proof.
  induction tags as [|t tags IH]; [reflexivity|].
  cbn [existsb validate_tags]. intros E. apply orb_false_elim in E.
  destruct E as [-> E]. auto.
Qed.

Lemma validate_tags_malformed (tags : list tag) :
  existsb malformed tags = true -> validate_tags tags = Raise SnykError.
Proof.
  induction tags as [|t tags IH]; [discriminate|].
  cbn [existsb validate_tags]. destruct (malformed t); auto.
Qed.

Lemma render_tags_ok (tags : list tag) :
  existsb malformed tags = false ->
  exists data, omap render_tag tags = Return data /\
               String.concat "," data = tags_param tags.
Proof.
  unfold tags_param. intros E. eexists. split; [|reflexivity].
  induction tags as [|t tags IH]; [reflexivity|].
  cbn [existsb] in E. apply orb_false_elim in E. destruct E as [Et E].
  unfold malformed, mem in Et.
  apply orb_false_elim in Et. destruct Et as [Et _].
  apply orb_false_elim in Et. destruct Et as [Ek Ev].
  cbn [omap map]. rewrite (IH E). unfold render_tag.
  destruct (lookup "key" t) as [k|]; [|discriminate].
  destruct (lookup "value" t) as [v|]; [|discriminate].
  reflexivity.
Qed.

Section Projects.
Context `{Backend} {Org Project : Type} `{Models Org Project} (client : SnykClient).

Lemma scoped_query_rejects_malformed_tag (fuel : nat) (org : Org)
    (tags : list tag) (next_url : json) (log : list request) :
  existsb malformed tags = true ->
  _query (S fuel) client (Some org) tags next_url log = (Raise SnykError, log).
Proof.
  intros E. destruct tags as [|t tags]; [discriminate|].
  cbn [_query]. rewrite (validate_tags_malformed _ E). reflexivity.
Qed.

(** X1.  On the project manager of an organization, [filter] with a tags
    list that contains a malformed tag raises [SnykError], and the log of
    requests is left as it was: nothing was sent. *)
Theorem scoped_filter_rejects_malformed_tag (fuel : nat) (org : Org)
    (tags : list tag) (kwargs : dict) (log : list request) :
  existsb malformed tags = true ->
  ProjectManager_filter (S fuel) client (Some org) tags kwargs log
    = (Raise SnykError, log).
Proof.
  intros E. unfold ProjectManager_filter.
  destruct tags as [|t tags]; [discriminate|].
  unfold bind. rewrite (scoped_query_rejects_malformed_tag _ _ _ _ _ E).
  reflexivity.
Qed.

(** X2.  On a project manager without an organization, [filter] does not
    look at its tags at all: whatever the tags, malformed or not, it does
    what it does with no tags. *)
Theorem unscoped_filter_ignores_tags (fuel : nat) (tags : list tag)
    (kwargs : dict) (log : list request) :
  ProjectManager_filter fuel client None tags kwargs log
    = ProjectManager_filter fuel client None [] kwargs log.
Proof.
  unfold ProjectManager_filter, Manager_filter, ProjectManager_all.
  destruct tags as [|t tags]; [reflexivity|].
  destruct fuel; reflexivity.
Qed.

(** The first request of a scoped query with well-formed tags, and what the
    query returns when the response has items and no "next" link. *)
Lemma scoped_query_one_page (fuel : nat) (org : Org) (tags : list tag)
    (log : list request) (r : request) (body : dict) (items : list json)
    (projects : list Project) :
  tags <> [] ->
  existsb malformed tags = false ->
  build_request client (JStr ("/orgs/" ++ org_id_str org ++ "/projects"))
    (Some (first_page_params (tags_param tags))) None true = Return r ->
  transport log r = Return (JObj body) ->
  lookup "data" body = Some (JArr items) ->
  no_next_link (JObj body) ->
  omap (build_project org) items = Return projects ->
  _query (S fuel) client (Some org) tags JNull log
    = (Return (map (set_organization org) projects), (log ++ [r])%list).
Proof.
  intros Hne Hok Hr Hb Hd (l & Hl & Hn) Hp.
  destruct tags as [|t tags]; [contradiction|].
  destruct (render_tags_ok _ Hok) as (data & Hdata & Hjoin).
  cbn [_query truthy negb]. rewrite (validate_tags_ok _ Hok). mret.
  rewrite Hdata. mret. rewrite Hjoin.
  change (insert "expand" (JStr "target")
            (insert "meta.latest_issue_counts" (JStr "true")
               (insert "tags" (JStr (tags_param (t :: tags))) [("limit", JNum 100)])))
    with (first_page_params (tags_param (t :: tags))).
  unfold get. unfold dict in Hr. rewrite Hr. mret.
  erewrite bind_eq; [|unfold send; rewrite Hb; reflexivity].
  cbn [py_in py_getitem]. unfold mem. rewrite Hd. mret.
  cbn [py_iter]. mret. rewrite Hp. mret. rewrite (links_of_get _ _ Hl). mret.
  cbn [py_in]. unfold mem. rewrite Hn. mret. reflexivity.
Qed.

(** X10.  For every project of a response, the dict handed to
    [Project.from_dict] is the normalized view followed by the
    organization and by [totalDependencies] set to 0: the [try] block that
    renames [attributes.tags] never finds an "attributes" key and changes
    nothing. *)
Theorem build_project_dict (org : Org) (p : json) :
  rest_project_payload p = true ->
  exists view,
    _rest_to_v1_response_format p = Return (JObj view)
    /\ build_project org p
         = from_dict (JObj (view ++ [ ("organization", org_to_dict org);
                                      ("totalDependencies", JNum 0) ])).
Proof.
  intros Hp.
  destruct (NormalizerFacts.normalize_payload p Hp)
    as (m & a & rt & ic & ta & idt & imp & own & -> & _ & _ & Hn).
  cbv zeta in Hn. eexists. split; [exact Hn|].
  unfold build_project. rewrite Hn. cbn [obind]. reflexivity.
Qed.

(** X12.  Unlike [get_rest_pages], [_query] follows a "next" link as soon
    as the key is present: when the first page of the projects of an
    organization carries a "next" link that is falsy (such as [null]), the
    recursive call asks for the first page again, and [all()] never returns,
    whatever the budget of calls. *)
Theorem all_restarts_on_falsy_next (org : Org) (r : request) (body : dict)
    (items : list json) (projects : list Project) :
  build_request client (JStr ("/orgs/" ++ org_id_str org ++ "/projects"))
    (Some all_page_params) None true = Return r ->
  (forall log, transport log r = Return (JObj body)) ->
  lookup "data" body = Some (JArr items) ->
  omap (build_project org) items = Return projects ->
  falsy_next (JObj body) ->
  forall fuel log,
    fst (ProjectManager_all fuel client (Some org) log) = OutOfFuel.
Proof.
  intros Hr Hb Hd Hp (l & n & Hl & Hn & Ht). unfold dict in Hr.
  unfold ProjectManager_all.
  assert (Hgen : forall fuel next_url log, truthy next_url = false ->
            fst (_query fuel client (Some org) [] next_url log) = OutOfFuel).
  { induction fuel as [|fuel IH]; intros next_url log Hfalsy; [reflexivity|].
    cbn [_query]. rewrite Hfalsy. cbn [negb]. mret.
    change (insert "expand" (JStr "target")
              (insert "meta.latest_issue_counts" (JStr "true") [("limit", JNum 100)]))
      with all_page_params.
    unfold get. rewrite Hr. mret.
    erewrite bind_eq; [|unfold send; rewrite (Hb log); reflexivity].
    cbn [py_in py_getitem]. unfold mem. rewrite Hd. mret.
    cbn [py_iter]. mret. rewrite Hp. mret.
    rewrite (links_of_get _ _ Hl). mret.
    cbn [py_in py_getitem]. unfold mem. rewrite Hn. mret.
    specialize (IH n (log ++ [r])%list Ht).
    unfold bind.
    destruct (_query fuel client (Some org) [] n (log ++ [r])%list) as [[x|e|] lg];
      cbn [fst] in IH; try discriminate. reflexivity. }
  intros fuel log. apply Hgen. reflexivity.
Qed.

(** X4.  On the project manager of an organization, [filter] with a
    non-empty list of well-formed tags sends one request whose "tags"
    parameter is the comma-joined [key:value] rendering of the tags; when the
    response has no "next" link, the result is every project of the
    response, in order, filtered by the keyword predicates only: the tags
    are not looked at again on the client. *)
Theorem filter_tags_server_side (fuel : nat) (org : Org) (tags : list tag)
    (kwargs : dict) (log : list request) (r : request) (body : dict)
    (items : list json) (projects : list Project) :
  tags <> [] ->
  existsb malformed tags = false ->
  build_request client (JStr ("/orgs/" ++ org_id_str org ++ "/projects"))
    (Some (first_page_params (tags_param tags))) None true = Return r ->
  transport log r = Return (JObj body) ->
  lookup "data" body = Some (JArr items) ->
  no_next_link (JObj body) ->
  omap (build_project org) items = Return projects ->
  (forall ps, Client.params r = Some ps ->
     lookup "tags" ps = Some (JStr (tags_param tags)))
  /\ ProjectManager_filter (S fuel) client (Some org) tags kwargs log
       = (_filter_by_kwargs (map (set_organization org) projects) kwargs,
          (log ++ [r])%list).
Proof.
  intros Hne Hok Hr Hb Hd Hnext Hp. split.
  - intros ps Hps.
    apply (rest_get_keeps_params client _ _ _ _ _ "tags" (JStr (tags_param tags))
             Hr Hps); [discriminate|reflexivity].
  - unfold ProjectManager_filter. destruct tags as [|t tags]; [contradiction|].
    erewrite bind_eq;
      [reflexivity
      |exact (scoped_query_one_page fuel org _ log r body items projects
                Hne Hok Hr Hb Hd Hnext Hp)].
Qed.

End Projects.

Lemma scoped_filter_rejects_malformed_tag_witness :
  @ProjectManager_filter demo_backend json json demo_models 1 demo_client
    (Some demo_org) [ [("key", "env")] ] [] []
  = (Raise SnykError, []).
Proof.
  apply (@scoped_filter_rejects_malformed_tag demo_backend json json demo_models
           demo_client 0 demo_org [ [("key", "env")] ] [] []).
  reflexivity.
Defined.

(** A filter on [env:prod] returns both projects of the response, the one
    that carries the tag and the one that does not. *)
Lemma filter_tags_server_side_witness :
  exists projects,
    @ProjectManager_filter demo_backend json json demo_models 1 demo_client
      (Some demo_org) [ [("key", "env"); ("value", "prod")] ] [] []
    = (Return projects,
       [ {| url := url_projects;
            params := Some [ ("limit", JNum 100); ("tags", JStr "env:prod");
                             ("meta.latest_issue_counts", JStr "true");
                             ("expand", JStr "target");
                             ("version", JStr "2024-10-15") ] |} ])
    /\ map item_id projects = [JStr "p1"; JStr "p2"].
Proof.
  eexists. split.
  - apply (@filter_tags_server_side demo_backend json json demo_models demo_client
             0 demo_org [ [("key", "env"); ("value", "prod")] ] [] []
             {| url := url_projects;
                params := Some [ ("limit", JNum 100); ("tags", JStr "env:prod");
                                 ("meta.latest_issue_counts", JStr "true");
                                 ("expand", JStr "target");
                                 ("version", JStr "2024-10-15") ] |}
             [ ("data", JArr [ bare_project; tagged_project ]); ("links", JObj []) ]
             [ bare_project; tagged_project ]).
    + discriminate.
    + reflexivity.
    + reflexivity.
    + reflexivity.
    + reflexivity.
    + eexists. split; reflexivity.
    + reflexivity.
  - reflexivity.
Defined.

Lemma build_project_dict_witness :
  exists view,
    _rest_to_v1_response_format bare_project = Return (JObj view)
    /\ @build_project json json demo_models demo_org bare_project
         = Return (JObj (view ++ [ ("organization", demo_org);
                                   ("totalDependencies", JNum 0) ])).
Proof.
  apply (@build_project_dict json json demo_models demo_org bare_project).
  reflexivity.
Defined.

Lemma all_restarts_on_falsy_next_witness :
  fst (@ProjectManager_all demo_backend json json demo_models 40 demo_client
         (Some demo_org_n) []) = OutOfFuel.
Proof.
  eapply (@all_restarts_on_falsy_next demo_backend json json demo_models demo_client
           demo_org_n
           {| url := url_projects_n;
              params := Some [ ("limit", JNum 100);
                               ("meta.latest_issue_counts", JStr "true");
                               ("expand", JStr "target");
                               ("version", JStr "2024-10-15") ] |}
           [ ("data", JArr [ bare_project ]); ("links", JObj [ ("next", JNull) ]) ]
           [ bare_project ]).
  - reflexivity.
  - reflexivity.
  - reflexivity.
  - reflexivity.
  - do 2 eexists. repeat split; reflexivity.
Defined.

End ProjectFacts.
